(** * ISO drawing PDF -> table extraction: a shallow embedding of [main.py]

    The development follows [main.py] top to bottom, and takes the
    selection of the files from [add_gui.py] for comparison:
    - Python strings as lists of Unicode code points, with [str.strip],
      [str.split()] and [str.split("\n")];
    - [fitz.Rect] as a record of four binary64 floats and the rotation
      correction [get_corrected_rect];
    - pages and documents as the capabilities PyMuPDF gives the program
      (rotation, page size, text search, clipped text extraction), each
      fallible primitive returning a [result];
    - [find_text_position], [extract_text_in_region],
      [extract_data_from_pdf] and [process_pdfs_in_folder], the console
      output being an explicit list of messages. *)

From Stdlib Require Import PrimFloat NArith ZArith List Bool Lia String Ascii.
From Stdlib Require Import Sorted Permutation.
Import ListNotations.

Set Warnings "-inexact-float".

(** ** Python strings *)

(** A character is a Unicode code point, a string a sequence of them. *)
Definition char := N.
Definition str := list char.

(** ASCII literals of the source, as code points. *)
Definition lit (s : string) : str :=
  List.map N_of_ascii (list_ascii_of_string s).

Definition newline : char := 10%N.

(** [str.isspace] on one code point: the whitespace set of CPython
    ([_PyUnicode_IsWhitespace]). *)
Definition isspace (c : char) : bool :=
  ((9 <=? c) && (c <=? 13) || (28 <=? c) && (c <=? 32)
   || (c =? 133) || (c =? 160) || (c =? 5760)
   || (8192 <=? c) && (c <=? 8202)
   || (c =? 8232) || (c =? 8233) || (c =? 8239) || (c =? 8287)
   || (c =? 12288))%N.

Fixpoint str_eqb (a b : str) : bool :=
  match a, b with
  | [], [] => true
  | x :: a', y :: b' => (x =? y)%N && str_eqb a' b'
  | _, _ => false
  end.

(** Truthiness of a Python sequence: non-empty. *)
Definition truthy {A : Type} (l : list A) : bool :=
  match l with [] => false | _ :: _ => true end.

Fixpoint lstrip (s : str) : str :=
  match s with
  | [] => []
  | c :: s' => if isspace c then lstrip s' else s
  end.

(** [s.strip()] *)
Definition strip (s : str) : str := rev (lstrip (rev (lstrip s))).

(** [s.split(sep)] for a one-character separator: always at least one
    piece, empty pieces kept. *)
Fixpoint split_on (sep : char) (s : str) : list str :=
  match s with
  | [] => [[]]
  | c :: s' =>
      if (c =? sep)%N then [] :: split_on sep s'
      else match split_on sep s' with
           | [] => [[c]]
           | l :: ls => (c :: l) :: ls
           end
  end.

(** [s.split()]: maximal runs of non-whitespace, no empty piece.  [tok]
    is the run being read. *)
Fixpoint split_ws_from (tok : str) (s : str) : list str :=
  match s with
  | [] => if truthy tok then [tok] else []
  | c :: s' =>
      if isspace c
      then (if truthy tok then [tok] else []) ++ split_ws_from [] s'
      else split_ws_from (tok ++ [c]) s'
  end.

Definition split_ws (s : str) : list str := split_ws_from [] s.

(** ** Rectangles and rotation correction *)

Open Scope float_scope.

(** [fitz.Rect]: four Python floats (IEEE 754 binary64). *)
Record Rect := mkRect { x0 : float; y0 : float; x1 : float; y1 : float }.

(** Exceptions of class [Exception] the program can meet. *)
Inductive Exn :=
| IndexError
| ValueError
| FitzError (code : N).

Inductive result (A : Type) :=
| Ok (a : A)
| Raise (e : Exn).
Arguments Ok {A} a.
Arguments Raise {A} e.

Definition bind {A B : Type} (m : result A) (k : A -> result B) : result B :=
  match m with
  | Ok a => k a
  | Raise e => Raise e
  end.

Declare Scope result_scope.
Delimit Scope result_scope with result.
Notation "x <- m ;; k" := (bind m (fun x => k))
  (at level 61, m at next level, right associativity) : result_scope.
Notation "' p <- m ;; k" := (bind m (fun x => match x with p => k end))
  (at level 61, p pattern, m at next level, right associativity) : result_scope.

(** A page, as the program sees it: [page.rotation], [page.rect.width],
    [page.rect.height], [page.search_for(text)] and
    [page.get_text("text", clip=rect)]. *)
Record Page := mkPage {
  rotation : Z;
  rect_width : float;
  rect_height : float;
  search_for : str -> result (list Rect);
  get_text : Rect -> result str
}.

Definition Document := list Page.

Definition get_corrected_rect (page : Page) (rect : Rect) : Rect :=
  let rotation := rotation page in
  let page_width := rect_width page in
  let page_height := rect_height page in
  if (rotation =? 90)%Z then
    mkRect (y0 rect) (page_width - x1 rect) (y1 rect) (page_width - x0 rect)
  else if (rotation =? 180)%Z then
    mkRect (page_width - x1 rect) (page_height - y1 rect)
           (page_width - x0 rect) (page_height - y0 rect)
  else if (rotation =? 270)%Z then
    mkRect (page_height - y1 rect) (x0 rect) (page_height - y0 rect) (x1 rect)
  else rect.

(** [enumerate(doc)] from [page_index] on, inside [find_text_position]. *)
Fixpoint find_text_position_from (page_index : nat) (pages : list Page)
    (search_text : str) : result (list (nat * Rect)) :=
  match pages with
  | [] => Ok []
  | page :: rest =>
      (bboxes <- search_for page search_text ;;
       positions <- find_text_position_from (S page_index) rest search_text ;;
       Ok (List.map (fun bbox => (page_index, get_corrected_rect page bbox))
                    bboxes ++ positions))%result
  end.

Definition find_text_position (doc : Document) (search_text : str)
    : result (list (nat * Rect)) :=
  find_text_position_from 0 doc search_text.

(** The search of [find_text_position] without the correction: the boxes
    of the search primitive with their page indices. *)
Fixpoint raw_positions_from (page_index : nat) (pages : list Page)
    (search_text : str) : result (list (nat * Rect)) :=
  match pages with
  | [] => Ok []
  | page :: rest =>
      (bboxes <- search_for page search_text ;;
       positions <- raw_positions_from (S page_index) rest search_text ;;
       Ok (List.map (fun bbox => (page_index, bbox)) bboxes ++ positions))%result
  end.

Definition extract_text_in_region (page : Page) (rect : Rect) : result str :=
  let corrected_rect := get_corrected_rect page rect in
  (text <- get_text page corrected_rect ;;
   Ok (if truthy text then strip text else []))%result.

(** [l[0]] and [doc[i]]: [IndexError] out of range. *)
Definition first {A : Type} (l : list A) : result A :=
  match l with
  | [] => Raise IndexError
  | a :: _ => Ok a
  end.

Definition getitem {A : Type} (l : list A) (i : nat) : result A :=
  match nth_error l i with
  | Some a => Ok a
  | None => Raise IndexError
  end.

(** ** Data frames *)

(** A [pandas.DataFrame] of strings: the column labels and the rows. *)
Record DataFrame := mkDataFrame {
  df_columns : list str;
  df_rows : list (list str)
}.

(** [pd.DataFrame(rows, columns=columns)] on rows of strings.  pandas
    raises [ValueError] when the longest row has not one field per column
    and pads a shorter row with [None]; the program builds a frame only
    after line 119 has found every row of the length of [columns], and the
    model raises on every other input. *)
Definition pd_DataFrame (rows : list (list str)) (columns : list str)
    : result DataFrame :=
  if forallb (fun r => (List.length r =? List.length columns)%nat) rows
  then Ok (mkDataFrame columns rows)
  else Raise ValueError.

Fixpoint index_of (name : str) (cols : list str) : option nat :=
  match cols with
  | [] => None
  | c :: cols' =>
      if str_eqb c name then Some 0%nat
      else option_map S (index_of name cols')
  end.

Fixpoint replace_nth {A : Type} (i : nat) (v : A) (l : list A) : list A :=
  match l, i with
  | [], _ => []
  | _ :: l', O => v :: l'
  | a :: l', S i' => a :: replace_nth i' v l'
  end.

(** [df[name] = value] with a scalar: the column is overwritten when it
    exists and appended as the last column when it does not. *)
Definition df_setitem (df : DataFrame) (name : str) (value : str) : DataFrame :=
  match index_of name (df_columns df) with
  | Some i =>
      mkDataFrame (df_columns df) (List.map (replace_nth i value) (df_rows df))
  | None =>
      mkDataFrame (df_columns df ++ [name])
                  (List.map (fun r => r ++ [value]) (df_rows df))
  end.

(** [df.empty]: an axis of length 0. *)
Definition df_empty (df : DataFrame) : bool :=
  negb (truthy (df_rows df)) || negb (truthy (df_columns df)).

(** [pd.concat(frames, ignore_index=True)] for frames that carry the same
    column labels (every frame [extract_data_from_pdf] returns does, see
    [successes_columns]): the rows one frame after the other. *)
Definition pd_concat (frames : list DataFrame) : DataFrame :=
  mkDataFrame (match frames with [] => [] | df :: _ => df_columns df end)
              (List.concat (List.map df_rows frames)).

(** ** Console output *)

(** The lines the program prints, by the [print] that writes them. *)
Inductive Msg :=
| KeywordSearchError (e : Exn)          (* main.py line 65 *)
| KeywordsNotFound (pdf_path : str)     (* line 69 *)
| NoTableText (pdf_path : str)          (* line 98: both sets without text *)
| TableEmpty (pdf_path : str)           (* line 117 *)
| TableShapeMismatch (pdf_path : str)   (* line 120 *)
| PdfProcessingError (e : Exn)          (* line 133 *)
| FolderNotFound                        (* line 142 *)
| NoPdfInFolder                         (* line 147 *)
| Processing (pdf_path : str)           (* line 153 *)
| CsvSaved (output_csv : str)           (* line 162 *)
| NoDataExtracted.                      (* line 164 *)

(** ** [extract_data_from_pdf] *)

(** Coordinate set 1 *)
Definition table_rect_set1 : Rect :=
  mkRect 39.89999771118164 760.1726684570312 557.47998046875 820.8424682617188.
Definition iso_no_rect_set1 : Rect :=
  mkRect 960.6903686523438 811.55810546875 1500.6903686523438 816.8818969726562.
Definition rev_no_rect_set1 : Rect :=
  mkRect 1156.469970703125 812.6487426757812 1172.7728271484375 820.2630004882812.

(** Coordinate set 2 *)
Definition table_rect_set2 : Rect :=
  mkRect 10.4000244140625 535.4000244140625 389.02935546875 567.79730224609375.
Definition iso_no_rect_set2 : Rect :=
  mkRect 687.4000244140625 565.4000244140625 780.02935546875 580.79730224609375.
Definition rev_no_rect_set2 : Rect :=
  mkRect 820.4000244140625 575.4000244140625 829.02935546875 579.79730224609375.

Definition columns : list str :=
  List.map lit
    ["NPS"; "SPEC"; "OPER.PRESS"; "OPER.TEMP"; "DESIGN.PRESS"; "DESIGN.TEMP";
     "TEST.PRESS"; "MEDIUM"; "INSULATION.TYPE"; "INSULATION.THK"; "TRACING.TEMP";
     "PAUT"; "UT"; "PT"; "MT"; "PAINTCODE"; "PWHT"; "STEAMOUT"; "TOXIC"]%string.

(** The labels of a returned frame: [columns], then the two columns of
    lines 127 and 128. *)
Definition extended_columns : list str :=
  columns ++ [lit "ISO_NO"; lit "REV.NO"].

(** The keywords searched for, in the order of lines 59-63. *)
Definition required_keywords : list str :=
  List.map lit ["NPS"; "TOXIC"; "KOSHA"; "ISO DWG. NO."; "REV. NO"]%string.

(** What [extract_data_from_pdf] gives back: the returned value ([None] or
    a frame) and the lines printed. *)
Definition Extraction : Type := option DataFrame * list Msg.

(** Line 112: the non-blank lines, each split on whitespace. *)
Definition table_rows (table_text : str) : list (list str) :=
  List.map split_ws
    (List.filter (fun line => truthy (strip line)) (split_on newline table_text)).

(** Lines 104-130: parsing the table text into the returned frame. *)
Definition parse_table (pdf_path table_text iso_no_text rev_no_text : str)
    : result Extraction :=
  let rows := table_rows table_text in
  if negb (truthy rows) then Ok (None, [TableEmpty pdf_path])
  else if existsb (fun r => negb (List.length r =? List.length columns)%nat) rows
  then Ok (None, [TableShapeMismatch pdf_path])
  else
    (df <- pd_DataFrame rows columns ;;
     let df := df_setitem df (lit "ISO_NO") iso_no_text in
     let df := df_setitem df (lit "REV.NO") rev_no_text in
     Ok (Some df, []))%result.

(** Lines 85-102 followed by the parsing: first the table region of set 1,
    then that of set 2. *)
Definition resolve_layout (pdf_path : str) (nps_page iso_page rev_page : Page)
    : result Extraction :=
  (table_text <- extract_text_in_region nps_page table_rect_set1 ;;
   if truthy (strip table_text) then
     iso_no_text <- extract_text_in_region iso_page iso_no_rect_set1 ;;
     rev_no_text <- extract_text_in_region rev_page rev_no_rect_set1 ;;
     parse_table pdf_path table_text iso_no_text rev_no_text
   else
     table_text <- extract_text_in_region nps_page table_rect_set2 ;;
     if negb (truthy (strip table_text)) then Ok (None, [NoTableText pdf_path])
     else
       iso_no_text <- extract_text_in_region iso_page iso_no_rect_set2 ;;
       rev_no_text <- extract_text_in_region rev_page rev_no_rect_set2 ;;
       parse_table pdf_path table_text iso_no_text rev_no_text)%result.

(** Lines 59-63: the five keyword searches, in order. *)
Definition locate_keywords (doc : Document)
    : result (list (nat * Rect) * list (nat * Rect) * list (nat * Rect)
              * list (nat * Rect) * list (nat * Rect)) :=
  (nps_positions <- find_text_position doc (lit "NPS") ;;
   toxic_positions <- find_text_position doc (lit "TOXIC") ;;
   kosha_positions <- find_text_position doc (lit "KOSHA") ;;
   iso_positions <- find_text_position doc (lit "ISO DWG. NO.") ;;
   rev_positions <- find_text_position doc (lit "REV. NO") ;;
   Ok (nps_positions, toxic_positions, kosha_positions,
       iso_positions, rev_positions))%result.

(** Lines 72-102: the pages of the first anchors, then the layouts. *)
Definition extract_with_anchors (pdf_path : str) (doc : Document)
    (nps_positions iso_positions rev_positions : list (nat * Rect))
    : result Extraction :=
  ('(nps_page_idx, nps_rect) <- first nps_positions ;;
   '(iso_page_idx, iso_rect) <- first iso_positions ;;
   '(rev_page_idx, rev_rect) <- first rev_positions ;;
   nps_page <- getitem doc nps_page_idx ;;
   iso_page <- getitem doc iso_page_idx ;;
   rev_page <- getitem doc rev_page_idx ;;
   resolve_layout pdf_path nps_page iso_page rev_page)%result.

(** [fitz_open] is [fitz.open]: the document behind a path, or the
    exception raised on opening it. *)
Definition extract_data_from_pdf (fitz_open : str -> result Document)
    (pdf_path : str) : Extraction :=
  match fitz_open pdf_path with
  | Raise e => (None, [PdfProcessingError e])
  | Ok doc =>
      match locate_keywords doc with
      | Raise e => (None, [KeywordSearchError e])
      | Ok (nps_positions, toxic_positions, kosha_positions,
            iso_positions, rev_positions) =>
          if negb (truthy nps_positions && truthy toxic_positions
                   && truthy kosha_positions && truthy iso_positions
                   && truthy rev_positions)
          then (None, [KeywordsNotFound pdf_path])
          else
            match extract_with_anchors pdf_path doc
                    nps_positions iso_positions rev_positions with
            | Raise e => (None, [PdfProcessingError e])
            | Ok r => r
            end
      end
  end.

(** ** Reading a document with one coordinate set *)

(** The three regions of one coordinate set, read on the pages of the
    first anchors. *)
Definition read_with (nps_page iso_page rev_page : Page)
    (table_rect iso_no_rect rev_no_rect : Rect)
    (table_text iso_no_text rev_no_text : str) : Prop :=
  extract_text_in_region nps_page table_rect = Ok table_text /\
  extract_text_in_region iso_page iso_no_rect = Ok iso_no_text /\
  extract_text_in_region rev_page rev_no_rect = Ok rev_no_text.

(** The texts a frame is built from: those of set 1 when its table region
    has text, those of set 2 when it has none. *)
Definition resolved (nps_page iso_page rev_page : Page)
    (table_text iso_no_text rev_no_text : str) : Prop :=
  table_text <> [] /\
  (read_with nps_page iso_page rev_page
     table_rect_set1 iso_no_rect_set1 rev_no_rect_set1
     table_text iso_no_text rev_no_text
   \/ (extract_text_in_region nps_page table_rect_set1 = Ok [] /\
       read_with nps_page iso_page rev_page
         table_rect_set2 iso_no_rect_set2 rev_no_rect_set2
         table_text iso_no_text rev_no_text)).

(** Every keyword has an anchor in [doc], and [nps_page], [iso_page] and
    [rev_page] are the pages of the first anchors of "NPS", "ISO DWG. NO."
    and "REV. NO". *)
Definition anchored (doc : Document) (nps_page iso_page rev_page : Page) : Prop :=
  exists nps_positions toxic_positions kosha_positions iso_positions
         rev_positions nps_anchor iso_anchor rev_anchor,
    locate_keywords doc
    = Ok (nps_positions, toxic_positions, kosha_positions,
          iso_positions, rev_positions) /\
    toxic_positions <> [] /\ kosha_positions <> [] /\
    hd_error nps_positions = Some nps_anchor /\
    hd_error iso_positions = Some iso_anchor /\
    hd_error rev_positions = Some rev_anchor /\
    nth_error doc (fst nps_anchor) = Some nps_page /\
    nth_error doc (fst iso_anchor) = Some iso_page /\
    nth_error doc (fst rev_anchor) = Some rev_page.

(** The frame of a table text with the two document values. *)
Definition frame_of (table_text iso_no_text rev_no_text : str) : DataFrame :=
  mkDataFrame extended_columns
    (List.map (fun r => r ++ [iso_no_text; rev_no_text]) (table_rows table_text)).

(** The lines that report a failure of one document. *)
Definition is_failure (pdf_path : str) (m : Msg) : Prop :=
  (exists e, m = PdfProcessingError e) \/
  (exists e, m = KeywordSearchError e) \/
  m = KeywordsNotFound pdf_path \/
  m = NoTableText pdf_path \/
  m = TableEmpty pdf_path \/
  m = TableShapeMismatch pdf_path.

(** ** Table texts of whitespace-separated fields *)

(** ["\n".join(pieces)] for the one-character separator [sep]. *)
Fixpoint join (sep : char) (pieces : list str) : str :=
  match pieces with
  | [] => []
  | p :: rest =>
      match rest with
      | [] => p
      | _ :: _ => p ++ sep :: join sep rest
      end
  end.

(** No occurrence of [sep] in [s]. *)
Definition no_sep (sep : char) (s : str) : bool :=
  forallb (fun c => negb (c =? sep)%N) s.

(** What [split()] emits when a run of non-whitespace ends. *)
Definition flush (tok : str) : list str := if truthy tok then [tok] else [].

(** A run of whitespace inside a line: no line feed in it. *)
Definition is_gap (s : str) : bool :=
  forallb (fun c => isspace c && negb (c =? newline)%N) s.

(** A field: at least one character, none of them whitespace. *)
Definition is_token (s : str) : bool :=
  truthy s && forallb (fun c => negb (isspace c)) s.

(** A line of a table text: blank, or fields, each with the whitespace
    before it, and the whitespace after the last. *)
Inductive Line :=
| Blank (gap : str)
| Fields (cells : list (str * str)) (trail : str).

Definition render_cells (cells : list (str * str)) : str :=
  List.concat (List.map (fun cell => fst cell ++ snd cell) cells).

Definition render (l : Line) : str :=
  match l with
  | Blank gap => gap
  | Fields cells trail => render_cells cells ++ trail
  end.

(** Every field but the first of a line has whitespace before it. *)
Fixpoint cells_ok (leading : bool) (cells : list (str * str)) : bool :=
  match cells with
  | [] => true
  | (gap, tok) :: rest =>
      is_gap gap && (leading || truthy gap) && is_token tok
      && cells_ok false rest
  end.

Definition line_ok (l : Line) : bool :=
  match l with
  | Blank gap => is_gap gap
  | Fields cells trail => truthy cells && cells_ok true cells && is_gap trail
  end.

(** The fields of the lines that have some, line by line. *)
Definition fields_of (lines : list Line) : list (list str) :=
  List.flat_map
    (fun l => match l with
              | Blank _ => []
              | Fields cells _ => [List.map snd cells]
              end) lines.

(** ** [process_pdfs_in_folder] *)

(** [str.lower] on the ASCII letters.  Code points outside ASCII are left
    as they are: no character outside ASCII lowers to [.], [p], [d] or [f],
    so the test [f.lower().endswith(".pdf")] does not depend on them. *)
Definition lower_char (c : char) : char :=
  if ((65 <=? c) && (c <=? 90))%N then (c + 32)%N else c.

Definition lower (s : str) : str := List.map lower_char s.

Fixpoint startswith (s prefix : str) : bool :=
  match prefix, s with
  | [], _ => true
  | p :: prefix', c :: s' => (c =? p)%N && startswith s' prefix'
  | _ :: _, [] => false
  end.

Definition endswith (s suffix : str) : bool :=
  startswith (rev s) (rev suffix).

(** What the program uses of [os] and of [fitz]: [os.path.exists],
    [os.listdir] (in the order the file system gives), [os.path.join] and
    [fitz.open]. *)
Record World := mkWorld {
  path_exists : str -> bool;
  listdir : str -> result (list str);
  path_join : str -> str -> str;
  fitz_open : str -> result Document
}.

(** Line 145. *)
Definition is_pdf (f : str) : bool := endswith (lower f) (lit ".pdf").

(** Lines 151-156: the loop over [pdf_files], [all_data] being the frames
    appended so far.  Gives the final [all_data] and the lines printed. *)
Fixpoint collect (w : World) (folder_path : str) (pdf_files : list str)
    (all_data : list DataFrame) : list DataFrame * list Msg :=
  match pdf_files with
  | [] => (all_data, [])
  | pdf_file :: rest =>
      let pdf_path := path_join w folder_path pdf_file in
      let '(df, printed) := extract_data_from_pdf (fitz_open w) pdf_path in
      let all_data :=
        match df with
        | Some d => if negb (df_empty d) then all_data ++ [d] else all_data
        | None => all_data
        end in
      let '(all_data, printed') := collect w folder_path rest all_data in
      (all_data, Processing pdf_path :: printed ++ printed')
  end.

(** The run of the batch on the line [typed] at the prompt: the CSV file
    written, if any, as its path and content, and the lines printed; an
    exception of [os.listdir] is not caught.  The closing [input] that keeps
    the console open is left out. *)
Definition process_pdfs_in_folder (w : World) (typed : str)
    : result (option (str * DataFrame) * list Msg) :=
  let folder_path := strip typed in
  if negb (path_exists w folder_path) then Ok (None, [FolderNotFound])
  else
    (names <- listdir w folder_path ;;
     let pdf_files := List.filter is_pdf names in
     if negb (truthy pdf_files) then Ok (None, [NoPdfInFolder])
     else
       let '(all_data, printed) := collect w folder_path pdf_files [] in
       if truthy all_data then
         let final_df := pd_concat all_data in
         let output_csv := path_join w folder_path (lit "extracted_data.csv") in
         Ok (Some (output_csv, final_df), printed ++ [CsvSaved output_csv])
       else Ok (None, printed ++ [NoDataExtracted]))%result.

(** What one file of the folder gives. *)
Definition extracted (w : World) (folder_path pdf_file : str) : Extraction :=
  extract_data_from_pdf (fitz_open w) (path_join w folder_path pdf_file).

(** The frames of the files that give one, in the order of the files. *)
Definition successes (w : World) (folder_path : str) (pdf_files : list str)
    : list DataFrame :=
  List.flat_map
    (fun pdf_file =>
       match fst (extracted w folder_path pdf_file) with
       | Some df => [df]
       | None => []
       end) pdf_files.

(** The lines printed for the files, in the order of the files: the
    progress line of each file, then what its extraction prints. *)
Definition transcript (w : World) (folder_path : str) (pdf_files : list str)
    : list Msg :=
  List.flat_map
    (fun pdf_file =>
       Processing (path_join w folder_path pdf_file)
       :: snd (extracted w folder_path pdf_file)) pdf_files.

(** ** The file selection of [add_gui.py] *)

Module AddGui.

(** [a <= b] on Python strings: lexicographic on code points. *)
Fixpoint str_leb (a b : str) : bool :=
  match a, b with
  | [], _ => true
  | _ :: _, [] => false
  | x :: a', y :: b' => (x <? y)%N || (x =? y)%N && str_leb a' b'
  end.

Fixpoint insert (s : str) (l : list str) : list str :=
  match l with
  | [] => [s]
  | t :: l' => if str_leb s t then s :: l else t :: insert s l'
  end.

(** [list.sort()] on strings. *)
Definition sort (l : list str) : list str := fold_right insert [] l.

(** Lines 143-147 of [add_gui.py]: the same filter, then
    [pdf_files.sort()]. *)
Definition pdf_files (names : list str) : list str :=
  sort (List.filter is_pdf names).

End AddGui.

(** ** Sample documents *)

Module Samples.

Definition space : char := 32%N.

(** A line of [n] fields [tok], separated by one space. *)
Definition line_of (n : nat) (tok : str) : str :=
  List.concat (List.repeat (tok ++ [space]) n).

Definition row19 : str := line_of 19 (lit "A1").
Definition row18 : str := line_of 18 (lit "A1").

(** Three rows of 19 fields and one of 18. *)
Definition text_short_row : str :=
  row19 ++ [newline] ++ row19 ++ [newline] ++ row18 ++ [newline] ++ row19.

(** Two lines of 19 fields around a blank line, the fields of the first
    separated by a tab and a space. *)
Definition lines_two_rows : list Line :=
  [Fields (List.repeat ([9%N; space], lit "A1") 19) [];
   Blank [space; space];
   Fields (([], lit "B0") :: List.repeat ([space], lit "B2") 18) [space]].

(** A page answering every search with one box and giving [text1] in the
    table region of set 1, [text2] in that of set 2, and the name of the
    region asked for in the four others. *)
Definition rect_eqb (a b : Rect) : bool :=
  PrimFloat.eqb (x0 a) (x0 b) && PrimFloat.eqb (y0 a) (y0 b)
  && PrimFloat.eqb (x1 a) (x1 b) && PrimFloat.eqb (y1 a) (y1 b).

Definition region_text (text1 text2 : str) (clip : Rect) : result str :=
  if rect_eqb clip table_rect_set1 then Ok text1
  else if rect_eqb clip table_rect_set2 then Ok text2
  else if rect_eqb clip iso_no_rect_set1 then Ok (lit "ISO-1")
  else if rect_eqb clip rev_no_rect_set1 then Ok (lit "R1")
  else if rect_eqb clip iso_no_rect_set2 then Ok (lit "ISO-2")
  else if rect_eqb clip rev_no_rect_set2 then Ok (lit "R2")
  else Ok [].

Definition page_with (found : str -> bool) (text1 text2 : str) : Page :=
  mkPage 0 1684 1191
    (fun kw => Ok (if found kw then [mkRect 10 10 20 20] else []))
    (region_text text1 text2).

Definition doc_both : Document :=
  [page_with (fun _ => true) row19 (row19 ++ [newline] ++ row19)].
Definition doc_fallback : Document :=
  [page_with (fun _ => true) [] row19].
Definition doc_blank : Document :=
  [page_with (fun _ => true) [] [space]].
Definition doc_short_row : Document :=
  [page_with (fun _ => true) text_short_row []].
Definition doc_no_rev : Document :=
  [page_with (fun kw => negb (str_eqb kw (lit "REV. NO"))) row19 row19].
Definition doc_search_fails : Document :=
  [mkPage 0 1684 1191 (fun _ => Raise (FitzError 2)) (fun _ => Ok row19)].

(** A folder of samples; every other path fails to open. *)
Definition open_sample (pdf_path : str) : result Document :=
  if str_eqb pdf_path (lit "in/both.pdf") then Ok doc_both
  else if str_eqb pdf_path (lit "in/fallback.PDF") then Ok doc_fallback
  else if str_eqb pdf_path (lit "in/blank.pdf") then Ok doc_blank
  else if str_eqb pdf_path (lit "in/short.pdf") then Ok doc_short_row
  else if str_eqb pdf_path (lit "in/norev.pdf") then Ok doc_no_rev
  else if str_eqb pdf_path (lit "in/locked.pdf") then Ok doc_search_fails
  else Raise (FitzError 1).

(** A listing with a file that does not open, a file that is not a PDF
    and a file whose table has a short row. *)
Definition names_mixed : list str :=
  [lit "both.pdf"; lit "gone.pdf"; lit "notes.txt"; lit "fallback.PDF";
   lit "short.pdf"].

(** A listing that is not in the order of the names. *)
Definition names_unsorted : list str := [lit "fallback.PDF"; lit "both.pdf"].

Definition row_of (iso rev : str) : list str :=
  List.repeat (lit "A1") 19 ++ [iso; rev].

Definition world (names : list str) : World :=
  mkWorld (fun p => str_eqb p (lit "in"))
          (fun _ => Ok names)
          (fun a b => a ++ lit "/" ++ b)
          open_sample.

End Samples.

(** ** Documents whose primitives answer *)



(** ** Stripped strings *)

(** No whitespace at the head of [s]. *)
Definition headed (s : str) : bool :=
  match s with
  | [] => true
  | c :: _ => negb (isspace c)
  end.

(** A listing of the samples in another order, with one more file that is
    not a PDF. *)
Definition names_mixed_again : list str :=
  [lit "fallback.PDF"; lit "short.pdf"; lit "readme.md"; lit "gone.pdf";
   lit "both.pdf"; lit "notes.txt"].

(** ** [add_gui.py]: selection of a region by hand and OCR *)

Module Gui.

(** The samples of an image stay abstract: what a page renders to, and
    what [Image.crop] cuts out of it. *)
Inductive Pixels :=
| Rendered (id : N)
| CroppedFrom (source : Pixels) (x_left y_top x_right y_bottom : Z).

(** A [PIL.Image]: [img.width], [img.height] and its samples. *)
Record Image := mkImage {
  img_width : Z;
  img_height : Z;
  img_pixels : Pixels
}.

(** A page as [add_gui.py] sees it: [page.get_pixmap(matrix=Matrix(zoom_x,
    zoom_y))], taken with its width, height and samples into an image by
    [Image.frombytes]. *)
Record Page := mkPage {
  get_pixmap : float -> float -> result Image
}.

(** [img.crop((left, top, right, bottom))] *)
Definition crop (img : Image) (box : Z * Z * Z * Z) : Image :=
  let '(x_left, y_top, x_right, y_bottom) := box in
  mkImage (x_right - x_left) (y_bottom - y_top)
          (CroppedFrom (img_pixels img) x_left y_top x_right y_bottom).

(** What the program uses of [os], [fitz] and [pytesseract]. *)
Record Desk := mkDesk {
  isdir : str -> bool;
  listdir : str -> result (list str);
  path_join : str -> str -> str;
  fitz_open : str -> result (list Page);
  image_to_string : Image -> result str
}.

(** Lines 15-31, for the page indices the program uses (none negative). *)
Definition render_pdf_page_as_image (desk : Desk) (pdf_path : str)
    (page_index : nat) (zoom_x zoom_y : float) : result Image :=
  (doc <- fitz_open desk pdf_path ;;
   if (List.length doc <=? page_index)%nat then Raise ValueError
   else
     page <- getitem doc page_index ;;
     pix <- get_pixmap page zoom_x zoom_y ;;
     Ok pix)%result.

(** *** The canvas and the mouse *)

Inductive Item :=
| ImageItem (img : Image)
| RectangleItem (x0 y0 x1 y1 : Z).

(** A [tk.Canvas]: its items under their ids, and the id of the next item
    created. *)
Record Canvas := mkCanvas {
  items : list (N * Item);
  next_id : N
}.

Definition create (canvas : Canvas) (item : Item) : N * Canvas :=
  (next_id canvas,
   mkCanvas (items canvas ++ [(next_id canvas, item)]) (next_id canvas + 1)).

Definition delete (canvas : Canvas) (id : N) : Canvas :=
  mkCanvas (List.filter (fun entry => negb (fst entry =? id)%N) (items canvas))
           (next_id canvas).

(** The variables the three handlers share. *)
Record Selection := mkSelection {
  canvas : Canvas;
  rect_id : option N;
  start_x : Z;
  start_y : Z;
  selected_area : Z * Z * Z * Z
}.

Inductive Event :=
| ButtonPress (x y : Z)
| Motion (x y : Z)
| ButtonRelease (x y : Z).

Definition on_mouse_press (s : Selection) (x y : Z) : Selection :=
  match rect_id s with
  | Some id => mkSelection (delete (canvas s) id) None x y (selected_area s)
  | None => mkSelection (canvas s) None x y (selected_area s)
  end.

Definition on_mouse_drag (s : Selection) (x y : Z) : Selection :=
  let cleared :=
    match rect_id s with
    | Some id => delete (canvas s) id
    | None => canvas s
    end in
  let '(id, drawn) :=
    create cleared (RectangleItem (start_x s) (start_y s) x y) in
  mkSelection drawn (Some id) (start_x s) (start_y s) (selected_area s).

Definition on_mouse_release (s : Selection) (x y : Z) : Selection :=
  let end_x := x in
  let end_y := y in
  let x_left := Z.min (start_x s) end_x in
  let x_right := Z.max (start_x s) end_x in
  let y_top := Z.min (start_y s) end_y in
  let y_bottom := Z.max (start_y s) end_y in
  mkSelection (canvas s) (rect_id s) (start_x s) (start_y s)
              (x_left, y_top, x_right, y_bottom).

Definition handle (s : Selection) (ev : Event) : Selection :=
  match ev with
  | ButtonPress x y => on_mouse_press s x y
  | Motion x y => on_mouse_drag s x y
  | ButtonRelease x y => on_mouse_release s x y
  end.

(** The window as [mainloop] is entered: the page drawn as the first item
    of the canvas, nothing selected. *)
Definition opened (img : Image) : Selection :=
  let '(_, shown) := create (mkCanvas [] 1) (ImageItem img) in
  mkSelection shown None 0 0 (0, 0, 0, 0)%Z.

(** [mainloop] on the events that arrive before the window is closed. *)
Definition mainloop (img : Image) (events : list Event) : Selection :=
  fold_left handle events (opened img).

(** Lines 37-102. *)
Definition select_table_region (desk : Desk) (pdf_path : str)
    (zoom_x zoom_y : float) (events : list Event)
    : result (Z * Z * Z * Z * (Z * Z)) :=
  (img <- render_pdf_page_as_image desk pdf_path 0 zoom_x zoom_y ;;
   let w := img_width img in
   let h := img_height img in
   Ok (selected_area (mainloop img events), (w, h)))%result.

(** *** OCR of the region *)

(** Lines 116-121: the region brought back into the image. *)
Definition clamp_region (img : Image) (region : Z * Z * Z * Z)
    : Z * Z * Z * Z :=
  let w := img_width img in
  let h := img_height img in
  let '(x_left, y_top, x_right, y_bottom) := region in
  let x_left := Z.max 0 (Z.min x_left w) in
  let x_right := Z.max 0 (Z.min x_right w) in
  let y_top := Z.max 0 (Z.min y_top h) in
  let y_bottom := Z.max 0 (Z.min y_bottom h) in
  (x_left, y_top, x_right, y_bottom).

(** Lines 108-130. *)
Definition ocr_extract_text (desk : Desk) (pdf_path : str)
    (region : Z * Z * Z * Z) (zoom_x zoom_y : float) : result str :=
  (img <- render_pdf_page_as_image desk pdf_path 0 zoom_x zoom_y ;;
   let '(x_left, y_top, x_right, y_bottom) := clamp_region img region in
   if (x_right - x_left <? 1)%Z || (y_bottom - y_top <? 1)%Z then Ok []
   else
     let cropped_img := crop img (x_left, y_top, x_right, y_bottom) in
     text <- image_to_string desk cropped_img ;;
     Ok (strip text))%result.

(** *** The batch *)

(** The lines of [add_gui.py], by the [print] that writes them. *)
Inductive Line :=
| NotAFolder                            (* line 140 *)
| NoPdfFiles                            (* line 145 *)
| SelectRegionOn (first_pdf : str)      (* line 151 *)
| NoRegionSelected                      (* line 157 *)
| OcrProcessing (pdf_path : str)        (* line 164 *)
| OcrFailed (pdf_name : str) (e : Exn)  (* line 168 *)
| ExcelSaved (output_excel : str).      (* line 180 *)

Definition area_eqb (a b : Z * Z * Z * Z) : bool :=
  let '(a0, a1, a2, a3) := a in
  let '(b0, b1, b2, b3) := b in
  ((a0 =? b0) && (a1 =? b1) && (a2 =? b2) && (a3 =? b3))%Z.

(** Lines 161-174: the loop over [pdf_files], [results] being the records
    appended so far as (FileName, ExtractedText). *)
Fixpoint ocr_all (desk : Desk) (folder_path : str)
    (selected_area : Z * Z * Z * Z) (zoom_x zoom_y : float)
    (pdf_files : list str) (results : list (str * str))
    : list (str * str) * list Line :=
  match pdf_files with
  | [] => (results, [])
  | pdf_name :: rest =>
      let pdf_path := path_join desk folder_path pdf_name in
      let '(ocr_text, printed) :=
        match ocr_extract_text desk pdf_path selected_area zoom_x zoom_y with
        | Ok text => (text, [])
        | Raise e => ([], [OcrFailed pdf_name e])
        end in
      let results := results ++ [(pdf_name, ocr_text)] in
      let '(results, printed') :=
        ocr_all desk folder_path selected_area zoom_x zoom_y rest results in
      (results, OcrProcessing pdf_path :: printed ++ printed')
  end.

(** [pd.DataFrame(results)] on the records of the loop. *)
Definition frame_of_records (results : list (str * str)) : DataFrame :=
  mkDataFrame
    (if truthy results then [lit "FileName"; lit "ExtractedText"] else [])
    (List.map (fun record => [fst record; snd record]) results).

(** Lines 136-182 on the line [typed] at the prompt and the mouse events
    in the window: the lines printed, and either the Excel file written, if
    any, as its path and content, or the exception that ends the run.  The
    closing [input] is left out. *)
Definition process_pdfs_in_folder (desk : Desk) (typed : str)
    (events : list Event) : list Line * result (option (str * DataFrame)) :=
  let folder_path := strip typed in
  if negb (isdir desk folder_path) then ([NotAFolder], Ok None)
  else
    match listdir desk folder_path with
    | Raise e => ([], Raise e)
    | Ok names =>
        let pdf_files := List.filter is_pdf names in
        if negb (truthy pdf_files) then ([NoPdfFiles], Ok None)
        else
          let pdf_files := AddGui.sort pdf_files in
          match first pdf_files with
          | Raise e => ([], Raise e)
          | Ok first_name =>
              let first_pdf := path_join desk folder_path first_name in
              let zoom_x := 2.0%float in
              let zoom_y := 2.0%float in
              match select_table_region desk first_pdf zoom_x zoom_y events with
              | Raise e => ([SelectRegionOn first_pdf], Raise e)
              | Ok (selected_area, (img_w, img_h)) =>
                  if area_eqb selected_area (0, 0, 0, 0)%Z
                  then ([SelectRegionOn first_pdf; NoRegionSelected], Ok None)
                  else
                    let '(results, printed) :=
                      ocr_all desk folder_path selected_area zoom_x zoom_y
                              pdf_files [] in
                    let df := frame_of_records results in
                    let output_excel :=
                      path_join desk folder_path (lit "extracted_data.xlsx") in
                    (SelectRegionOn first_pdf :: printed
                       ++ [ExcelSaved output_excel],
                     Ok (Some (output_excel, df)))
              end
          end
    end.

(** *** Notions for the properties *)

(** A box inside [img], at least one pixel wide and one pixel high. *)
Definition valid_crop (img : Image) (box : Z * Z * Z * Z) : Prop :=
  let '(x_left, y_top, x_right, y_bottom) := box in
  (0 <= x_left /\ x_left + 1 <= x_right /\ x_right <= img_width img /\
   0 <= y_top /\ y_top + 1 <= y_bottom /\ y_bottom <= img_height img)%Z.

Definition is_motion (ev : Event) : bool :=
  match ev with Motion _ _ => true | _ => false end.

(** The canvas shows the page and at most one rectangle: the one
    [rect_id] names, drawn from the point of the last press. *)
Definition tidy (img : Image) (s : Selection) : Prop :=
  (1 < next_id (canvas s))%N /\
  match rect_id s with
  | None => items (canvas s) = [(1%N, ImageItem img)]
  | Some id =>
      (1 < id < next_id (canvas s))%N /\
      exists x y,
        items (canvas s)
        = [(1%N, ImageItem img);
           (id, RectangleItem (start_x s) (start_y s) x y)]
  end.

(** The text recorded for a file: that of the OCR, or the empty string
    when the OCR raises. *)
Definition recorded_text (desk : Desk) (folder_path : str)
    (selected_area : Z * Z * Z * Z) (zoom_x zoom_y : float) (pdf_name : str)
    : str :=
  match ocr_extract_text desk (path_join desk folder_path pdf_name)
          selected_area zoom_x zoom_y with
  | Ok text => text
  | Raise _ => []
  end.

Definition is_release (ev : Event) : bool :=
  match ev with ButtonRelease _ _ => true | _ => false end.

(** [a <= b] on Python strings, as a relation. *)
Definition str_le (a b : str) : Prop := AddGui.str_leb a b = true.

(** *** Sample desk *)

(** A desk with three files: two render to an 800 x 600 image and are read
    as the size of the crop allows, one does not open. *)
Definition sample_page (id : N) : Page :=
  mkPage (fun _ _ => Ok (mkImage 800 600 (Rendered id))).

Definition sample_open (pdf_path : str) : result (list Page) :=
  if str_eqb pdf_path (lit "in/a.pdf") then Ok [sample_page 1]
  else if str_eqb pdf_path (lit "in/b.PDF") then Ok [sample_page 2]
  else if str_eqb pdf_path (lit "in/empty.pdf") then Ok []
  else if str_eqb pdf_path (lit "in/0.pdf") then Ok []
  else Raise (FitzError 1).

Definition sample_ocr (img : Image) : result str :=
  if (img_width img <? 10)%Z then Raise (FitzError 3)
  else Ok (lit " TEXT ").

Definition sample_desk (names : list str) : Desk :=
  mkDesk (fun p => str_eqb p (lit "in"))
         (fun _ => Ok names)
         (fun a b => a ++ lit "/" ++ b)
         sample_open sample_ocr.

(** A drag from (300, 200) up and left to (100, 50). *)
Definition sample_drag : list Event :=
  [ButtonPress 300 200; Motion 250 150; Motion 100 50; ButtonRelease 100 50].

End Gui.

(** * Properties *)

(** ** Geometry Corrector *)

(** C2. The Geometry Corrector returns the input rectangle at rotation 0,
    (y0, w - x1, y1, w - x0) at 90, (w - x1, h - y1, w - x0, h - y0) at 180,
    (h - y1, x0, h - y0, x1) at 270, and the input rectangle at every other
    rotation value; the result depends on the rotation, the page size and
    the rectangle only. *)
Theorem get_corrected_rect_cases (page : Page) (rect : Rect) :
  let w := rect_width page in
  let h := rect_height page in
  (rotation page = 0%Z -> get_corrected_rect page rect = rect) /\
  (rotation page = 90%Z ->
   get_corrected_rect page rect
   = mkRect (y0 rect) (w - x1 rect) (y1 rect) (w - x0 rect)) /\
  (rotation page = 180%Z ->
   get_corrected_rect page rect
   = mkRect (w - x1 rect) (h - y1 rect) (w - x0 rect) (h - y0 rect)) /\
  (rotation page = 270%Z ->
   get_corrected_rect page rect
   = mkRect (h - y1 rect) (x0 rect) (h - y0 rect) (x1 rect)) /\
  (rotation page <> 90%Z -> rotation page <> 180%Z ->
   rotation page <> 270%Z -> get_corrected_rect page rect = rect) /\
  (forall page' : Page,
      rotation page' = rotation page ->
      rect_width page' = w -> rect_height page' = h ->
      get_corrected_rect page' rect = get_corrected_rect page rect).
Proof.
  unfold get_corrected_rect; cbn zeta.
  repeat split.
  - intros ->; reflexivity.
  - intros ->; reflexivity.
  - intros ->; reflexivity.
  - intros ->; reflexivity.
  - intros H1 H2 H3.
    apply Z.eqb_neq in H1, H2, H3. now rewrite H1, H2, H3.
  - intros page' -> -> ->; reflexivity.
Qed.

(** The four rotations of the document format and one value outside them,
    on a 595 x 842 page. *)
Lemma get_corrected_rect_cases_witness :
  let rect := mkRect 10 20 30 40 in
  let page r := mkPage r 595 842 (fun _ => Ok []) (fun _ => Ok []) in
  get_corrected_rect (page 0%Z) rect = rect /\
  get_corrected_rect (page 90%Z) rect = mkRect 20 565 40 585 /\
  get_corrected_rect (page 180%Z) rect = mkRect 565 802 585 822 /\
  get_corrected_rect (page 270%Z) rect = mkRect 802 10 822 30 /\
  get_corrected_rect (page 45%Z) rect = rect.
Proof.
  intros rect page.
  pose proof (get_corrected_rect_cases (page 0%Z) rect) as H0.
  pose proof (get_corrected_rect_cases (page 90%Z) rect) as H90.
  pose proof (get_corrected_rect_cases (page 180%Z) rect) as H180.
  pose proof (get_corrected_rect_cases (page 270%Z) rect) as H270.
  pose proof (get_corrected_rect_cases (page 45%Z) rect) as H45.
  cbn zeta in *.
  destruct H0 as [H0 _].
  destruct H90 as [_ [H90 _]].
  destruct H180 as [_ [_ [H180 _]]].
  destruct H270 as [_ [_ [_ [H270 _]]]].
  destruct H45 as [_ [_ [_ [_ [H45 _]]]]].
  split; [exact (H0 eq_refl)|].
  split; [exact (H90 eq_refl)|].
  split; [exact (H180 eq_refl)|].
  split; [exact (H270 eq_refl)|].
  apply H45; discriminate.
Defined.

Lemma get_corrected_rect_0 (page : Page) (rect : Rect) :
  rotation page = 0%Z -> get_corrected_rect page rect = rect.
Proof. unfold get_corrected_rect; intros ->; reflexivity. Qed.

Lemma get_corrected_rect_180 (page : Page) (rect : Rect) :
  rotation page = 180%Z ->
  get_corrected_rect page rect
  = mkRect (rect_width page - x1 rect) (rect_height page - y1 rect)
           (rect_width page - x0 rect) (rect_height page - y0 rect).
Proof. unfold get_corrected_rect; intros ->; reflexivity. Qed.

Lemma find_text_position_from_unrotated (pages : list Page) (search_text : str) :
  Forall (fun page => rotation page = 0%Z) pages ->
  forall page_index,
    find_text_position_from page_index pages search_text
    = raw_positions_from page_index pages search_text.
Proof.
  induction 1 as [|page rest Hrot _ IH]; intros page_index; cbn.
  - reflexivity.
  - destruct (search_for page search_text) as [bboxes|e]; cbn; [|reflexivity].
    rewrite IH.
    destruct (raw_positions_from (S page_index) rest search_text); cbn;
      [|reflexivity].
    do 2 f_equal. apply map_ext. intros bbox.
    now rewrite get_corrected_rect_0.
Qed.

(** The rectangle (0.1, 0.2, 0.3, 0.4) on a 595 x 842 page turned by 180
    degrees does not come back: the first correction rounds. *)
Lemma rotate_180_twice_not_identity :
  let page := mkPage 180 595 842 (fun _ => Ok []) (fun _ => Ok []) in
  let rect := mkRect 0.1 0.2 0.3 0.4 in
  get_corrected_rect page (get_corrected_rect page rect)
  = mkRect 0.10000000000002274 0.20000000000004547
           0.2999999999999545 0.39999999999997726
  /\ get_corrected_rect page (get_corrected_rect page rect) <> rect.
Proof.
  intros page rect. split; [vm_compute; reflexivity|].
  intros H. apply (f_equal (fun r => PrimFloat.eqb (x0 r) 0.1)) in H.
  vm_compute in H. discriminate H.
Qed.

(** C6, amended. Correcting at rotation 0 returns the identical rectangle.
    Correcting twice at rotation 180 returns
    (w - (w - x0), h - (h - y0), w - (w - x1), h - (h - y1)) in binary64
    arithmetic, which is the original rectangle exactly when each of the
    four subtractions comes back without rounding.  In a document whose
    pages all have rotation 0 the anchors of [find_text_position] are the
    raw boxes of the search primitive. *)
Theorem corrector_self_consistency :
  (forall page rect,
      rotation page = 0%Z -> get_corrected_rect page rect = rect) /\
  (forall page rect,
      rotation page = 180%Z ->
      let w := rect_width page in
      let h := rect_height page in
      get_corrected_rect page (get_corrected_rect page rect)
      = mkRect (w - (w - x0 rect)) (h - (h - y0 rect))
               (w - (w - x1 rect)) (h - (h - y1 rect))
      /\ (get_corrected_rect page (get_corrected_rect page rect) = rect
          <-> w - (w - x0 rect) = x0 rect /\ h - (h - y0 rect) = y0 rect
              /\ w - (w - x1 rect) = x1 rect /\ h - (h - y1 rect) = y1 rect)) /\
  (forall (doc : Document) search_text,
      Forall (fun page => rotation page = 0%Z) doc ->
      find_text_position doc search_text
      = raw_positions_from 0 doc search_text).
Proof.
  split; [exact get_corrected_rect_0|].
  split.
  - intros page rect Hrot w h.
    assert (Htwice :
      get_corrected_rect page (get_corrected_rect page rect)
      = mkRect (w - (w - x0 rect)) (h - (h - y0 rect))
               (w - (w - x1 rect)) (h - (h - y1 rect))).
    { rewrite (get_corrected_rect_180 page rect Hrot).
      rewrite get_corrected_rect_180 by exact Hrot. reflexivity. }
    split; [exact Htwice|].
    rewrite Htwice. destruct rect as [a b c d]; cbn.
    split.
    + intros H; injection H; auto.
    + intros (-> & -> & -> & ->); reflexivity.
  - intros doc search_text Hrot.
    apply find_text_position_from_unrotated; exact Hrot.
Qed.

(** A rectangle with whole coordinates on a 595 x 842 page at 180 degrees,
    and the sample document, whose only page has rotation 0. *)
Lemma corrector_self_consistency_witness :
  let page := mkPage 180 595 842 (fun _ => Ok []) (fun _ => Ok []) in
  let rect := mkRect 10 20 30 40 in
  get_corrected_rect page (get_corrected_rect page rect) = rect /\
  find_text_position Samples.doc_both (lit "NPS")
  = Ok [(0%nat, mkRect 10 10 20 20)].
Proof.
  intros page rect.
  destruct corrector_self_consistency as (_ & H180 & H0).
  split.
  - apply (H180 page rect eq_refl). vm_compute. repeat split.
  - rewrite (H0 Samples.doc_both (lit "NPS")).
    + reflexivity.
    + repeat constructor.
Defined.

(** ** Strings *)

Lemma truthy_false {A : Type} (l : list A) : truthy l = false <-> l = [].
Proof. destruct l; cbn; split; congruence. Qed.

Lemma truthy_true {A : Type} (l : list A) : truthy l = true <-> l <> [].
Proof. destruct l; cbn; split; congruence. Qed.

Lemma forallb_isspace_lstrip (s : str) :
  forallb isspace (lstrip s) = forallb isspace s.
Proof.
  induction s as [|c s IH]; cbn [lstrip forallb]; [reflexivity|].
  destruct (isspace c) eqn:E; cbn [forallb andb]; [exact IH|now rewrite E].
Qed.

Lemma truthy_lstrip (s : str) :
  truthy (lstrip s) = negb (forallb isspace s).
Proof.
  induction s as [|c s IH]; cbn [lstrip forallb]; [reflexivity|].
  destruct (isspace c) eqn:E; cbn [truthy andb negb]; [exact IH|reflexivity].
Qed.

Lemma forallb_rev {A : Type} (f : A -> bool) (l : list A) :
  forallb f (rev l) = forallb f l.
Proof.
  induction l as [|a l IH]; cbn; [reflexivity|].
  rewrite forallb_app, IH; cbn. rewrite andb_true_r. apply andb_comm.
Qed.

Lemma truthy_rev {A : Type} (l : list A) : truthy (rev l) = truthy l.
Proof.
  destruct l as [|a l]; cbn; [reflexivity|].
  destruct (rev l); reflexivity.
Qed.

(** A line survives [if line.strip()] when it has a character that is not
    whitespace. *)
Lemma truthy_strip (s : str) : truthy (strip s) = negb (forallb isspace s).
Proof.
  unfold strip.
  now rewrite truthy_rev, truthy_lstrip, forallb_rev, forallb_isspace_lstrip.
Qed.

Lemma forallb_isspace_strip (s : str) :
  forallb isspace (strip s) = forallb isspace s.
Proof.
  unfold strip.
  now rewrite forallb_rev, forallb_isspace_lstrip, forallb_rev,
    forallb_isspace_lstrip.
Qed.

(** Stripping what is already stripped finds the same emptiness. *)
Lemma truthy_strip_strip (s : str) : truthy (strip (strip s)) = truthy (strip s).
Proof. now rewrite (truthy_strip (strip s)), forallb_isspace_strip, truthy_strip. Qed.

(** The text of a region is empty or has a character that is not
    whitespace: the test [table_text.strip()] is the test [table_text]. *)
Lemma extract_text_in_region_stripped (page : Page) (rect : Rect) (t : str) :
  extract_text_in_region page rect = Ok t ->
  truthy (strip t) = truthy t.
Proof.
  unfold extract_text_in_region; cbn.
  destruct (get_text page (get_corrected_rect page rect)) as [text|e]; cbn;
    [|discriminate].
  intros H; injection H as <-.
  destruct (truthy text); [apply truthy_strip_strip|reflexivity].
Qed.

(** *** [split("\n")] against [join] *)

Lemma split_on_no_sep (sep : char) (s : str) :
  no_sep sep s = true -> split_on sep s = [s].
Proof.
  induction s as [|c s IH]; cbn; [reflexivity|].
  intros H; apply andb_prop in H as [Hc Hs].
  apply negb_true_iff in Hc. rewrite Hc, (IH Hs). reflexivity.
Qed.

Lemma split_on_app (sep : char) (s rest : str) :
  no_sep sep s = true ->
  split_on sep (s ++ sep :: rest) = s :: split_on sep rest.
Proof.
  induction s as [|c s IH]; cbn.
  - intros _. now rewrite N.eqb_refl.
  - intros H; apply andb_prop in H as [Hc Hs].
    apply negb_true_iff in Hc. rewrite Hc, (IH Hs). reflexivity.
Qed.

Lemma split_on_join (sep : char) (pieces : list str) :
  pieces <> [] ->
  forallb (no_sep sep) pieces = true ->
  split_on sep (join sep pieces) = pieces.
Proof.
  induction pieces as [|p rest IH]; [congruence|].
  intros _ H. cbn [forallb] in H. apply andb_prop in H as [Hp Hrest].
  destruct rest as [|q rest].
  - cbn. now apply split_on_no_sep.
  - change (join sep (p :: q :: rest)) with (p ++ sep :: join sep (q :: rest)).
    rewrite split_on_app by exact Hp.
    rewrite IH; [reflexivity|discriminate|exact Hrest].
Qed.

(** *** [split()] on a rendered line *)

Lemma split_ws_from_spaces (tok gap : str) :
  forallb isspace gap = true ->
  split_ws_from tok gap = flush tok.
Proof.
  revert tok. induction gap as [|c gap IH]; intros tok H; cbn [split_ws_from].
  - reflexivity.
  - cbn [forallb] in H. apply andb_prop in H as [Hc Hgap].
    rewrite Hc, (IH [] Hgap). unfold flush; cbn. now rewrite app_nil_r.
Qed.

Lemma split_ws_from_gap (tok gap rest : str) :
  truthy gap = true ->
  forallb isspace gap = true ->
  split_ws_from tok (gap ++ rest) = flush tok ++ split_ws_from [] rest.
Proof.
  revert tok. induction gap as [|c gap IH]; intros tok Hne H; [discriminate|].
  cbn [forallb] in H. apply andb_prop in H as [Hc Hgap].
  cbn [app split_ws_from]. rewrite Hc. fold (flush tok). f_equal.
  destruct gap as [|c' gap']; [reflexivity|].
  rewrite (IH [] eq_refl Hgap). reflexivity.
Qed.

Lemma split_ws_from_token (tok t rest : str) :
  forallb (fun c => negb (isspace c)) t = true ->
  split_ws_from tok (t ++ rest) = split_ws_from (tok ++ t) rest.
Proof.
  revert tok. induction t as [|c t IH]; intros tok H.
  - now rewrite app_nil_r.
  - cbn [forallb] in H. apply andb_prop in H as [Hc Ht].
    apply negb_true_iff in Hc.
    cbn [app split_ws_from]. rewrite Hc, (IH _ Ht), <- app_assoc. reflexivity.
Qed.

Lemma is_gap_spaces (gap : str) : is_gap gap = true -> forallb isspace gap = true.
Proof.
  unfold is_gap. rewrite !forallb_forall. intros H c Hc.
  apply H in Hc. now apply andb_prop in Hc as [Hc _].
Qed.

Lemma is_gap_no_newline (gap : str) :
  is_gap gap = true -> no_sep newline gap = true.
Proof.
  unfold is_gap, no_sep. rewrite !forallb_forall. intros H c Hc.
  apply H in Hc. now apply andb_prop in Hc as [_ Hc].
Qed.

Lemma is_token_no_newline (tok : str) :
  is_token tok = true -> no_sep newline tok = true.
Proof.
  unfold is_token, no_sep. intros H; apply andb_prop in H as [_ H].
  rewrite forallb_forall in *. intros c Hc. apply H in Hc.
  destruct (c =? newline)%N eqn:E; [|reflexivity].
  apply N.eqb_eq in E; subst c. discriminate Hc.
Qed.

(** The fields of a line: the tokens, whatever whitespace separates them. *)
Lemma split_ws_from_cells (cells : list (str * str)) (trail : str) :
  forall (leading : bool) (tok : str),
    cells_ok leading cells = true ->
    is_gap trail = true ->
    (leading = true -> tok = []) ->
    split_ws_from tok (render_cells cells ++ trail)
    = flush tok ++ List.map snd cells.
Proof.
  induction cells as [|[gap t] cells IH]; intros leading tok Hok Htrail Hlead.
  - cbn. rewrite app_nil_r. apply split_ws_from_spaces.
    now apply is_gap_spaces.
  - cbn [cells_ok] in Hok.
    apply andb_prop in Hok as [Hok Hrest].
    apply andb_prop in Hok as [Hok Htok].
    apply andb_prop in Hok as [Hgap Hsep].
    unfold is_token in Htok. apply andb_prop in Htok as [Hne Hns].
    assert (Hstep : forall tok',
      split_ws_from tok' (t ++ render_cells cells ++ trail)
      = split_ws_from (tok' ++ t) (render_cells cells ++ trail)).
    { intros tok'. now apply split_ws_from_token. }
    assert (Hafter :
      split_ws_from t (render_cells cells ++ trail)
      = t :: List.map snd cells).
    { rewrite (IH false t Hrest Htrail) by discriminate.
      unfold flush. now rewrite Hne. }
    unfold render_cells in *. cbn [List.map List.concat fst snd].
    rewrite <- !app_assoc.
    destruct (truthy gap) eqn:Egap.
    + rewrite split_ws_from_gap by (auto using is_gap_spaces).
      rewrite Hstep. cbn [app]. now rewrite Hafter.
    + apply truthy_false in Egap; subst gap.
      rewrite orb_false_r in Hsep. rewrite (Hlead Hsep).
      cbn [app]. rewrite Hstep. cbn [app]. now rewrite Hafter.
Qed.

Lemma split_ws_fields (cells : list (str * str)) (trail : str) :
  cells_ok true cells = true -> is_gap trail = true ->
  split_ws (render (Fields cells trail)) = List.map snd cells.
Proof.
  intros Hok Htrail. unfold split_ws; cbn [render].
  now rewrite (split_ws_from_cells cells trail true []).
Qed.

Lemma no_sep_app (sep : char) (a b : str) :
  no_sep sep (a ++ b) = no_sep sep a && no_sep sep b.
Proof. apply forallb_app. Qed.

Lemma render_cells_no_newline (cells : list (str * str)) (leading : bool) :
  cells_ok leading cells = true -> no_sep newline (render_cells cells) = true.
Proof.
  revert leading. induction cells as [|[gap t] cells IH]; intros leading Hok.
  - reflexivity.
  - cbn [cells_ok] in Hok.
    apply andb_prop in Hok as [Hok Hrest].
    apply andb_prop in Hok as [Hok Htok].
    apply andb_prop in Hok as [Hgap _].
    unfold render_cells in *. cbn [List.map List.concat fst snd].
    rewrite !no_sep_app, (is_gap_no_newline _ Hgap),
      (is_token_no_newline _ Htok), (IH false Hrest). reflexivity.
Qed.

Lemma render_no_newline (l : Line) :
  line_ok l = true -> no_sep newline (render l) = true.
Proof.
  destruct l as [gap|cells trail]; cbn [line_ok render].
  - apply is_gap_no_newline.
  - intros H. apply andb_prop in H as [H Htrail].
    apply andb_prop in H as [_ Hok].
    now rewrite no_sep_app, (render_cells_no_newline _ _ Hok),
      (is_gap_no_newline _ Htrail).
Qed.

(** The test [if line.strip()] keeps the lines with fields only. *)
Lemma nonblank_render (l : Line) :
  line_ok l = true ->
  truthy (strip (render l))
  = match l with Blank _ => false | Fields _ _ => true end.
Proof.
  rewrite truthy_strip.
  destruct l as [gap|cells trail]; cbn [line_ok render].
  - intros H. now rewrite (is_gap_spaces _ H).
  - intros H. apply andb_prop in H as [H _].
    apply andb_prop in H as [Hne Hok].
    destruct cells as [|[gap t] cells]; [discriminate|].
    cbn [cells_ok] in Hok.
    apply andb_prop in Hok as [Hok _].
    apply andb_prop in Hok as [_ Htok].
    unfold is_token in Htok. apply andb_prop in Htok as [Ht Hns].
    destruct t as [|c t]; [discriminate|].
    cbn [forallb] in Hns. apply andb_prop in Hns as [Hc _].
    apply negb_true_iff in Hc.
    unfold render_cells. cbn [List.map List.concat fst snd].
    rewrite !forallb_app. cbn [forallb]. rewrite Hc.
    cbn [andb]. now rewrite andb_false_r.
Qed.

Lemma rows_of_rendered (lines : list Line) :
  forallb line_ok lines = true ->
  List.map split_ws
    (List.filter (fun line => truthy (strip line)) (List.map render lines))
  = fields_of lines.
Proof.
  induction lines as [|l lines IH]; [reflexivity|].
  cbn [forallb]. intros H. apply andb_prop in H as [Hl Hls].
  cbn [List.map List.filter fields_of List.flat_map].
  rewrite (nonblank_render l Hl).
  destruct l as [gap|cells trail].
  - cbn [app]. now apply IH.
  - cbn [List.map app]. f_equal; [|now apply IH].
    cbn [line_ok] in Hl. apply andb_prop in Hl as [Hl Htrail].
    apply andb_prop in Hl as [_ Hok].
    now apply split_ws_fields.
Qed.

(** The rows of a rendered table text are the fields of its lines. *)
Lemma table_rows_rendered (lines : list Line) :
  lines <> [] ->
  forallb line_ok lines = true ->
  table_rows (join newline (List.map render lines)) = fields_of lines.
Proof.
  intros Hne Hok. unfold table_rows.
  rewrite split_on_join.
  - now apply rows_of_rendered.
  - destruct lines; [congruence|discriminate].
  - rewrite forallb_forall in *. intros s Hs.
    apply in_map_iff in Hs as (l & <- & Hl).
    apply render_no_newline. now apply Hok.
Qed.

(** ** Table Parser/Validator *)

Lemma columns_length : List.length columns = 19%nat.
Proof. reflexivity. Qed.

Lemma existsb_bad_row (rows : list (list str)) :
  existsb (fun r => negb (List.length r =? List.length columns)%nat) rows = true
  <-> exists r, In r rows /\ List.length r <> 19%nat.
Proof.
  rewrite existsb_exists, columns_length. split.
  - intros (r & Hin & H). exists r. split; [exact Hin|].
    apply negb_true_iff, Nat.eqb_neq in H. exact H.
  - intros (r & Hin & H). exists r. split; [exact Hin|].
    now apply negb_true_iff, Nat.eqb_neq.
Qed.

Lemma existsb_no_bad_row (rows : list (list str)) :
  existsb (fun r => negb (List.length r =? List.length columns)%nat) rows = false
  <-> forall r, In r rows -> List.length r = 19%nat.
Proof.
  split.
  - intros H r Hin.
    destruct (Nat.eq_dec (List.length r) 19) as [E|E]; [exact E|].
    assert (Hex : existsb
      (fun r => negb (List.length r =? List.length columns)%nat) rows = true)
      by (apply existsb_bad_row; eauto).
    congruence.
  - intros H.
    destruct (existsb _ rows) eqn:E; [|reflexivity].
    apply existsb_bad_row in E as (r & Hin & Hbad).
    now apply H in Hin.
Qed.

Lemma df_setitem_trailing (rows : list (list str)) (iso rev : str) :
  df_setitem (df_setitem (mkDataFrame columns rows) (lit "ISO_NO") iso)
             (lit "REV.NO") rev
  = mkDataFrame extended_columns (List.map (fun r => r ++ [iso; rev]) rows).
Proof.
  unfold df_setitem at 2. cbn [df_columns df_rows].
  replace (index_of (lit "ISO_NO") columns) with (@None nat)
    by (vm_compute; reflexivity).
  unfold df_setitem. cbn [df_columns df_rows].
  replace (index_of (lit "REV.NO") (columns ++ [lit "ISO_NO"])) with (@None nat)
    by (vm_compute; reflexivity).
  unfold extended_columns. rewrite <- app_assoc. cbn [app]. f_equal.
  rewrite map_map. apply map_ext. intros r. now rewrite <- app_assoc.
Qed.

(** The three ways out of the parser, by the rows of the table text. *)
Lemma parse_table_empty (pdf_path table_text iso rev : str) :
  table_rows table_text = [] ->
  parse_table pdf_path table_text iso rev = Ok (None, [TableEmpty pdf_path]).
Proof. unfold parse_table. intros ->. reflexivity. Qed.

Lemma parse_table_mismatch (pdf_path table_text iso rev : str) :
  table_rows table_text <> [] ->
  (exists r, In r (table_rows table_text) /\ List.length r <> 19%nat) ->
  parse_table pdf_path table_text iso rev
  = Ok (None, [TableShapeMismatch pdf_path]).
Proof.
  unfold parse_table. intros Hne Hbad.
  apply truthy_true in Hne. apply existsb_bad_row in Hbad.
  cbn zeta. now rewrite Hne, Hbad.
Qed.

Lemma parse_table_ok (pdf_path table_text iso rev : str) :
  table_rows table_text <> [] ->
  (forall r, In r (table_rows table_text) -> List.length r = 19%nat) ->
  parse_table pdf_path table_text iso rev
  = Ok (Some (frame_of table_text iso rev), []).
Proof.
  unfold parse_table, frame_of. intros Hne Hall.
  apply truthy_true in Hne. cbn zeta. rewrite Hne. cbn [negb].
  rewrite (proj2 (existsb_no_bad_row _) Hall).
  unfold pd_DataFrame.
  replace (forallb _ (table_rows table_text)) with true.
  - cbn [bind]. now rewrite df_setitem_trailing.
  - symmetry. apply forallb_forall. intros r Hin.
    rewrite columns_length. apply Nat.eqb_eq. now apply Hall.
Qed.

(** C3. The parser fails exactly when no row is left after the blank lines
    are dropped (empty table) or some row has not 19 fields (shape
    mismatch); on a shape mismatch nothing is returned, whatever the other
    rows are. *)
Theorem parse_table_fails_exactly (pdf_path table_text iso rev : str) :
  let rows := table_rows table_text in
  let parsed := parse_table pdf_path table_text iso rev in
  (rows = [] -> parsed = Ok (None, [TableEmpty pdf_path])) /\
  (rows <> [] -> (exists r, In r rows /\ List.length r <> 19%nat) ->
   parsed = Ok (None, [TableShapeMismatch pdf_path])) /\
  (exists out,
      parsed = Ok out /\
      (fst out = None
       <-> rows = [] \/ exists r, In r rows /\ List.length r <> 19%nat) /\
      (forall df, fst out = Some df ->
                  List.length (df_rows df) = List.length rows)).
Proof.
  cbn zeta.
  split; [apply parse_table_empty|].
  split; [apply parse_table_mismatch|].
  destruct (table_rows table_text) as [|r0 rows0] eqn:Erows.
  - eexists. split.
    + apply parse_table_empty; exact Erows.
    + cbn. split; [tauto|discriminate].
  - destruct (existsb
      (fun r => negb (List.length r =? List.length columns)%nat)
      (r0 :: rows0)) eqn:Ebad.
    + apply existsb_bad_row in Ebad. eexists. split.
      * apply parse_table_mismatch; rewrite Erows; [discriminate|exact Ebad].
      * cbn. split; [tauto|discriminate].
    + rewrite existsb_no_bad_row in Ebad. eexists. split.
      * apply parse_table_ok; rewrite Erows; [discriminate|exact Ebad].
      * cbn. split.
        -- split; [discriminate|].
           intros [H|(r & Hin & Hbad)]; [discriminate|].
           now apply Ebad in Hin.
        -- intros df H; injection H as <-. unfold frame_of. cbn [df_rows].
           now rewrite length_map, Erows.
Qed.

(** Three rows of 19 fields and one of 18: the whole table is refused. *)
Lemma parse_table_fails_exactly_witness :
  parse_table (lit "a.pdf") Samples.text_short_row (lit "ISO-1") (lit "R1")
  = Ok (None, [TableShapeMismatch (lit "a.pdf")]).
Proof.
  apply (parse_table_fails_exactly
           (lit "a.pdf") Samples.text_short_row (lit "ISO-1") (lit "R1")).
  - vm_compute; discriminate.
  - exists (List.repeat (lit "A1") 18).
    split; [vm_compute; tauto|vm_compute; discriminate].
Defined.

(** C4. Round trip: a table text of K >= 1 lines of 19 fields each,
    separated by whitespace, with blank lines anywhere between them, parses
    into exactly K rows holding those fields in their order on the line,
    followed by the two document values. *)
Theorem parse_table_round_trip (pdf_path iso rev : str) (lines : list Line) :
  forallb line_ok lines = true ->
  (1 <= List.length (fields_of lines))%nat ->
  (forall fields, In fields (fields_of lines) -> List.length fields = 19%nat) ->
  let table_text := join newline (List.map render lines) in
  table_rows table_text = fields_of lines /\
  exists df,
    parse_table pdf_path table_text iso rev = Ok (Some df, []) /\
    List.length (df_rows df) = List.length (fields_of lines) /\
    List.map (firstn 19) (df_rows df) = fields_of lines /\
    df_rows df = List.map (fun fields => fields ++ [iso; rev]) (fields_of lines).
Proof.
  intros Hok HK H19 table_text.
  assert (Hlines : lines <> []).
  { intros ->. cbn in HK. lia. }
  assert (Hrows : table_rows table_text = fields_of lines)
    by (apply table_rows_rendered; assumption).
  split; [exact Hrows|].
  eexists. split.
  - apply parse_table_ok; rewrite Hrows; [|exact H19].
    intros E. rewrite E in HK. cbn in HK. lia.
  - unfold frame_of. cbn [df_rows]. rewrite Hrows, length_map, map_map.
    split; [reflexivity|]. split; [|reflexivity].
    rewrite <- (map_id (fields_of lines)) at 2.
    apply map_ext_in. intros fields Hin.
    rewrite <- (H19 fields Hin), firstn_app, Nat.sub_diag, firstn_all.
    cbn. apply app_nil_r.
Qed.

(** Two lines of 19 fields around a blank line. *)
Lemma parse_table_round_trip_witness :
  exists df,
    parse_table (lit "a.pdf") (join newline (List.map render Samples.lines_two_rows))
                (lit "ISO-1") (lit "R1") = Ok (Some df, []) /\
    List.map (firstn 19) (df_rows df)
    = [List.repeat (lit "A1") 19; lit "B0" :: List.repeat (lit "B2") 18].
Proof.
  destruct (parse_table_round_trip (lit "a.pdf") (lit "ISO-1") (lit "R1")
              Samples.lines_two_rows) as (_ & df & Hdf & _ & Hfields & _).
  - vm_compute; reflexivity.
  - vm_compute; lia.
  - intros fields Hin. vm_compute in Hin.
    destruct Hin as [<-|[<-|[]]]; reflexivity.
  - exists df. split; [exact Hdf|exact Hfields].
Defined.

Lemma in_split_on (sep c : char) (s : str) :
  In c s -> c <> sep ->
  exists piece, In piece (split_on sep s) /\ In c piece.
Proof.
  intros Hin Hsep. induction s as [|x s IH]; [contradiction|].
  cbn [split_on].
  destruct (x =? sep)%N eqn:Ex.
  - destruct Hin as [->|Hin].
    + apply N.eqb_eq in Ex. contradiction.
    + destruct (IH Hin) as (piece & Hp & Hc). exists piece. split; [now right|exact Hc].
  - destruct (split_on sep s) as [|l ls] eqn:Es.
    + destruct Hin as [->|Hin].
      * exists [c]. split; now left.
      * destruct (IH Hin) as (piece & [] & _).
    + destruct Hin as [->|Hin].
      * exists (c :: l). split; now left.
      * destruct (IH Hin) as (piece & [<-|Hp] & Hc).
        -- exists (x :: l). split; [now left|now right].
        -- exists piece. split; [now right|exact Hc].
Qed.

(** A table text that passes the test of line 87 or 96 has a row: the
    exit of line 116 is never taken by [extract_data_from_pdf]. *)
Lemma table_rows_of_text (table_text : str) :
  truthy (strip table_text) = true -> table_rows table_text <> [].
Proof.
  rewrite truthy_strip. intros H. apply negb_true_iff in H.
  assert (Hc : exists c, In c table_text /\ isspace c = false).
  { clear -H. induction table_text as [|x t IH]; [discriminate|].
    cbn [forallb] in H. destruct (isspace x) eqn:Ex.
    - destruct (IH H) as (c & Hin & Hc). exists c. split; [now right|exact Hc].
    - exists x. split; [now left|exact Ex]. }
  destruct Hc as (c & Hin & Hc).
  destruct (in_split_on newline c table_text Hin) as (piece & Hp & Hcp).
  { intros ->. discriminate Hc. }
  unfold table_rows. intros E. apply map_eq_nil in E.
  assert (Hkept : In piece
    (List.filter (fun line => truthy (strip line)) (split_on newline table_text))).
  { apply filter_In. split; [exact Hp|].
    rewrite truthy_strip. apply negb_true_iff.
    destruct (forallb isspace piece) eqn:Ep; [|reflexivity].
    rewrite forallb_forall in Ep. rewrite (Ep c Hcp) in Hc. discriminate Hc. }
  rewrite E in Hkept. contradiction.
Qed.

Lemma parse_table_not_empty (pdf_path pdf_path' table_text iso rev : str) :
  table_rows table_text <> [] ->
  parse_table pdf_path table_text iso rev <> Ok (None, [TableEmpty pdf_path']).
Proof.
  intros Hne. apply truthy_true in Hne. unfold parse_table. cbn zeta.
  rewrite Hne. cbn [negb].
  destruct (existsb _ (table_rows table_text)); [discriminate|].
  destruct (pd_DataFrame (table_rows table_text) columns); discriminate.
Qed.

(** The parser never raises, and what it returns is fixed by its rows. *)
Lemma parse_table_cases (pdf_path table_text iso rev : str) :
  parse_table pdf_path table_text iso rev = Ok (None, [TableEmpty pdf_path])
  \/ parse_table pdf_path table_text iso rev
     = Ok (None, [TableShapeMismatch pdf_path])
  \/ (table_rows table_text <> []
      /\ (forall r, In r (table_rows table_text) -> List.length r = 19%nat)
      /\ parse_table pdf_path table_text iso rev
         = Ok (Some (frame_of table_text iso rev), [])).
Proof.
  destruct (table_rows table_text) as [|r0 rows0] eqn:Erows.
  - left. now apply parse_table_empty.
  - destruct (existsb
      (fun r => negb (List.length r =? List.length columns)%nat)
      (r0 :: rows0)) eqn:Ebad.
    + right; left. apply existsb_bad_row in Ebad.
      apply parse_table_mismatch; rewrite Erows; [discriminate|exact Ebad].
    + right; right. rewrite existsb_no_bad_row in Ebad.
      split; [discriminate|]. split; [exact Ebad|].
      apply parse_table_ok; rewrite Erows; [discriminate|exact Ebad].
Qed.

(** ** Layout Resolver *)

Lemma resolve_layout_set1 (pdf_path : str) (nps_page iso_page rev_page : Page)
    (table_text iso rev : str) :
  table_text <> [] ->
  read_with nps_page iso_page rev_page
    table_rect_set1 iso_no_rect_set1 rev_no_rect_set1 table_text iso rev ->
  resolve_layout pdf_path nps_page iso_page rev_page
  = parse_table pdf_path table_text iso rev.
Proof.
  intros Hne (Ht & Hi & Hr). unfold resolve_layout.
  rewrite Ht; cbn [bind].
  rewrite (extract_text_in_region_stripped _ _ _ Ht).
  apply truthy_true in Hne. rewrite Hne, Hi, Hr. reflexivity.
Qed.

Lemma resolve_layout_set2 (pdf_path : str) (nps_page iso_page rev_page : Page)
    (table_text iso rev : str) :
  table_text <> [] ->
  extract_text_in_region nps_page table_rect_set1 = Ok [] ->
  read_with nps_page iso_page rev_page
    table_rect_set2 iso_no_rect_set2 rev_no_rect_set2 table_text iso rev ->
  resolve_layout pdf_path nps_page iso_page rev_page
  = parse_table pdf_path table_text iso rev.
Proof.
  intros Hne H1 (Ht & Hi & Hr). unfold resolve_layout.
  rewrite H1; cbn [bind strip lstrip List.rev truthy].
  rewrite Ht; cbn [bind].
  rewrite (extract_text_in_region_stripped _ _ _ Ht).
  apply truthy_true in Hne. rewrite Hne, Hi, Hr. reflexivity.
Qed.

Lemma resolve_layout_no_text (pdf_path : str) (nps_page iso_page rev_page : Page) :
  extract_text_in_region nps_page table_rect_set1 = Ok [] ->
  extract_text_in_region nps_page table_rect_set2 = Ok [] ->
  resolve_layout pdf_path nps_page iso_page rev_page
  = Ok (None, [NoTableText pdf_path]).
Proof.
  intros H1 H2. unfold resolve_layout.
  rewrite H1; cbn [bind strip lstrip List.rev truthy].
  rewrite H2; reflexivity.
Qed.

Lemma resolved_text_has_rows (nps_page iso_page rev_page : Page)
    (table_text iso rev : str) :
  resolved nps_page iso_page rev_page table_text iso rev ->
  table_rows table_text <> [].
Proof.
  intros (Hne & H). apply table_rows_of_text.
  assert (Ht : exists rect, extract_text_in_region nps_page rect = Ok table_text).
  { destruct H as [(Ht & _)|(_ & Ht & _)]; eauto. }
  destruct Ht as (rect & Ht).
  rewrite (extract_text_in_region_stripped _ _ _ Ht). now apply truthy_true.
Qed.

(** Every way out of the layout resolution. *)
Lemma resolve_layout_cases (pdf_path : str) (nps_page iso_page rev_page : Page) :
  (exists e, resolve_layout pdf_path nps_page iso_page rev_page = Raise e)
  \/ (exists m, resolve_layout pdf_path nps_page iso_page rev_page
                = Ok (None, [m])
                /\ (m = NoTableText pdf_path
                    \/ m = TableShapeMismatch pdf_path))
  \/ (exists table_text iso rev,
        resolved nps_page iso_page rev_page table_text iso rev
        /\ table_rows table_text <> []
        /\ (forall r, In r (table_rows table_text) -> List.length r = 19%nat)
        /\ resolve_layout pdf_path nps_page iso_page rev_page
           = Ok (Some (frame_of table_text iso rev), [])).
Proof.
  assert (Hparse : forall table_text iso rev,
    resolved nps_page iso_page rev_page table_text iso rev ->
    resolve_layout pdf_path nps_page iso_page rev_page
    = parse_table pdf_path table_text iso rev).
  { intros table_text iso rev (Hne & [H|[H1 H]]).
    - now apply resolve_layout_set1.
    - now apply resolve_layout_set2. }
  assert (Hdone : forall table_text iso rev,
    resolved nps_page iso_page rev_page table_text iso rev ->
    (exists m, resolve_layout pdf_path nps_page iso_page rev_page
               = Ok (None, [m])
               /\ (m = NoTableText pdf_path
                   \/ m = TableShapeMismatch pdf_path))
    \/ (exists table_text iso rev,
          resolved nps_page iso_page rev_page table_text iso rev
          /\ table_rows table_text <> []
          /\ (forall r, In r (table_rows table_text) -> List.length r = 19%nat)
          /\ resolve_layout pdf_path nps_page iso_page rev_page
             = Ok (Some (frame_of table_text iso rev), []))).
  { intros table_text iso rev Hres. rewrite (Hparse _ _ _ Hres).
    destruct (parse_table_cases pdf_path table_text iso rev)
      as [E|[E|(Hne & H19 & E)]]; rewrite E.
    - apply parse_table_not_empty in E; [contradiction|].
      now apply resolved_text_has_rows in Hres.
    - left. eexists; split; [reflexivity|tauto].
    - right. exists table_text, iso, rev.
      rewrite <- E, <- (Hparse _ _ _ Hres). auto. }
  destruct (extract_text_in_region nps_page table_rect_set1)
    as [[|c1 t1]|e] eqn:E1.
  - destruct (extract_text_in_region nps_page table_rect_set2)
      as [[|c2 t2]|e] eqn:E2.
    + right; left. eexists; split; [now apply resolve_layout_no_text|tauto].
    + destruct (extract_text_in_region iso_page iso_no_rect_set2)
        as [iso|e] eqn:Ei;
      [destruct (extract_text_in_region rev_page rev_no_rect_set2)
        as [rev|e] eqn:Er|].
      * right. apply (Hdone (c2 :: t2) iso rev).
        split; [discriminate|]. right. unfold read_with. auto.
      * left. exists e. unfold resolve_layout.
        rewrite E1; cbn [bind strip lstrip List.rev truthy].
        rewrite E2; cbn [bind].
        rewrite (extract_text_in_region_stripped _ _ _ E2); cbn [truthy negb].
        now rewrite Ei, Er.
      * left. exists e. unfold resolve_layout.
        rewrite E1; cbn [bind strip lstrip List.rev truthy].
        rewrite E2; cbn [bind].
        rewrite (extract_text_in_region_stripped _ _ _ E2); cbn [truthy negb].
        now rewrite Ei.
    + left. exists e. unfold resolve_layout.
      rewrite E1; cbn [bind strip lstrip List.rev truthy]. now rewrite E2.
  - destruct (extract_text_in_region iso_page iso_no_rect_set1)
      as [iso|e] eqn:Ei;
    [destruct (extract_text_in_region rev_page rev_no_rect_set1)
      as [rev|e] eqn:Er|].
    + right. apply (Hdone (c1 :: t1) iso rev).
      split; [discriminate|]. left. unfold read_with. auto.
    + left. exists e. unfold resolve_layout.
      rewrite E1; cbn [bind].
      rewrite (extract_text_in_region_stripped _ _ _ E1); cbn [truthy].
      now rewrite Ei, Er.
    + left. exists e. unfold resolve_layout.
      rewrite E1; cbn [bind].
      rewrite (extract_text_in_region_stripped _ _ _ E1); cbn [truthy].
      now rewrite Ei.
  - left. exists e. unfold resolve_layout. now rewrite E1.
Qed.

(** ** [extract_data_from_pdf] *)

(** Past the anchor phase the function is the layout resolution on the
    pages of the first anchors, an exception turned into [None]. *)
Lemma extract_anchored (fitz_open : str -> result Document) (pdf_path : str)
    (doc : Document) (nps_page iso_page rev_page : Page) :
  fitz_open pdf_path = Ok doc ->
  anchored doc nps_page iso_page rev_page ->
  extract_data_from_pdf fitz_open pdf_path
  = match resolve_layout pdf_path nps_page iso_page rev_page with
    | Raise e => (None, [PdfProcessingError e])
    | Ok r => r
    end.
Proof.
  intros Hopen (nps & toxic & kosha & iso & rev & na & ia & ra &
                Hloc & Htoxic & Hkosha & Hn & Hi & Hr & Hnp & Hip & Hrp).
  unfold extract_data_from_pdf. rewrite Hopen, Hloc.
  destruct nps as [|na' nps]; [discriminate|]; injection Hn as ->.
  destruct iso as [|ia' iso]; [discriminate|]; injection Hi as ->.
  destruct rev as [|ra' rev]; [discriminate|]; injection Hr as ->.
  destruct toxic; [congruence|]. destruct kosha; [congruence|].
  cbn [truthy andb negb].
  unfold extract_with_anchors, first, getitem.
  destruct na as [ni nr], ia as [ii ir], ra as [ri rr]; cbn [fst] in *.
  cbn [bind]. rewrite Hnp; cbn [bind]. rewrite Hip; cbn [bind].
  rewrite Hrp; cbn [bind]. reflexivity.
Qed.

(** Every way out of [extract_data_from_pdf]: [None] with one line that
    tells the failure, or a frame and nothing printed. *)
Lemma extract_cases (fitz_open : str -> result Document) (pdf_path : str) :
  (exists m, extract_data_from_pdf fitz_open pdf_path = (None, [m])
             /\ ((exists e, m = PdfProcessingError e) \/
                 (exists e, m = KeywordSearchError e) \/
                 m = KeywordsNotFound pdf_path \/
                 m = NoTableText pdf_path \/
                 m = TableShapeMismatch pdf_path))
  \/ (exists doc nps_page iso_page rev_page table_text iso rev,
        fitz_open pdf_path = Ok doc
        /\ anchored doc nps_page iso_page rev_page
        /\ resolved nps_page iso_page rev_page table_text iso rev
        /\ table_rows table_text <> []
        /\ (forall r, In r (table_rows table_text) -> List.length r = 19%nat)
        /\ extract_data_from_pdf fitz_open pdf_path
           = (Some (frame_of table_text iso rev), [])).
Proof.
  destruct (fitz_open pdf_path) as [doc|e] eqn:Hopen.
  2:{ left. unfold extract_data_from_pdf. rewrite Hopen. eauto 6. }
  destruct (locate_keywords doc) as [[[[[nps toxic] kosha] iso] rev]|e] eqn:Hloc.
  2:{ left. unfold extract_data_from_pdf. rewrite Hopen, Hloc. eauto 6. }
  destruct (negb (truthy nps && truthy toxic && truthy kosha
                  && truthy iso && truthy rev)) eqn:Hfound.
  { left. unfold extract_data_from_pdf. rewrite Hopen, Hloc, Hfound. eauto 8. }
  apply negb_false_iff in Hfound.
  repeat (apply andb_prop in Hfound as [Hfound ?]).
  destruct nps as [|[ni nr] nps]; [discriminate|].
  destruct iso as [|[ii ir] iso]; [discriminate|].
  destruct rev as [|[ri rr] rev]; [discriminate|].
  destruct toxic as [|tx toxic]; [discriminate|].
  destruct kosha as [|ks kosha]; [discriminate|].
  assert (Hindex : forall e',
    extract_with_anchors pdf_path doc ((ni, nr) :: nps) ((ii, ir) :: iso)
      ((ri, rr) :: rev) = Raise e' ->
    exists m, extract_data_from_pdf fitz_open pdf_path = (None, [m])
              /\ ((exists e, m = PdfProcessingError e) \/
                  (exists e, m = KeywordSearchError e) \/
                  m = KeywordsNotFound pdf_path \/
                  m = NoTableText pdf_path \/
                  m = TableShapeMismatch pdf_path)).
  { intros e' He'. unfold extract_data_from_pdf.
    rewrite Hopen, Hloc. cbn [truthy andb negb]. rewrite He'. eauto 6. }
  destruct (nth_error doc ni) as [nps_page|] eqn:Hnp.
  2:{ left. apply (Hindex IndexError).
      unfold extract_with_anchors, first, getitem; cbn [bind].
      now rewrite Hnp. }
  destruct (nth_error doc ii) as [iso_page|] eqn:Hip.
  2:{ left. apply (Hindex IndexError).
      unfold extract_with_anchors, first, getitem; cbn [bind].
      rewrite Hnp; cbn [bind]. now rewrite Hip. }
  destruct (nth_error doc ri) as [rev_page|] eqn:Hrp.
  2:{ left. apply (Hindex IndexError).
      unfold extract_with_anchors, first, getitem; cbn [bind].
      rewrite Hnp; cbn [bind]. rewrite Hip; cbn [bind]. now rewrite Hrp. }
  assert (Hanch : anchored doc nps_page iso_page rev_page).
  { exists ((ni, nr) :: nps), (tx :: toxic), (ks :: kosha), ((ii, ir) :: iso),
      ((ri, rr) :: rev), (ni, nr), (ii, ir), (ri, rr).
    cbn [hd_error fst]. repeat split; try assumption; discriminate. }
  rewrite (extract_anchored fitz_open pdf_path doc _ _ _ Hopen Hanch).
  destruct (resolve_layout_cases pdf_path nps_page iso_page rev_page)
    as [(e & E)|[(m & E & Hm)|(table_text & iso' & rev' & Hres & Hne & H19 & E)]];
    rewrite E.
  - left. eauto 6.
  - left. exists m. split; [reflexivity|]. tauto.
  - right. exists doc, nps_page, iso_page, rev_page, table_text, iso', rev'.
    auto 10.
Qed.

(** A returned frame has the 21 labels and at least one row. *)
Lemma extract_some (fitz_open : str -> result Document) (pdf_path : str)
    (df : DataFrame) (printed : list Msg) :
  extract_data_from_pdf fitz_open pdf_path = (Some df, printed) ->
  printed = [] /\
  exists doc nps_page iso_page rev_page table_text iso rev,
    fitz_open pdf_path = Ok doc
    /\ anchored doc nps_page iso_page rev_page
    /\ resolved nps_page iso_page rev_page table_text iso rev
    /\ table_rows table_text <> []
    /\ (forall r, In r (table_rows table_text) -> List.length r = 19%nat)
    /\ df = frame_of table_text iso rev.
Proof.
  intros H.
  destruct (extract_cases fitz_open pdf_path)
    as [(m & E & _)|(doc & np & ip & rp & t & iso & rev &
                     Ho & Ha & Hres & Hne & H19 & E)];
    rewrite E in H; [discriminate|].
  injection H as <- <-. split; [reflexivity|].
  exists doc, np, ip, rp, t, iso, rev. auto 10.
Qed.

Lemma extract_none (fitz_open : str -> result Document) (pdf_path : str)
    (printed : list Msg) :
  extract_data_from_pdf fitz_open pdf_path = (None, printed) ->
  exists m, printed = [m] /\ is_failure pdf_path m.
Proof.
  intros H.
  destruct (extract_cases fitz_open pdf_path)
    as [(m & E & Hm)|(doc & np & ip & rp & t & iso & rev &
                      _ & _ & _ & _ & _ & E)];
    rewrite E in H; [|discriminate].
  injection H as <-. exists m. split; [reflexivity|].
  unfold is_failure. tauto.
Qed.

(** The line of the empty table is never printed: a table text that is
    not empty has a row. *)
Lemma extract_never_empty_table (fitz_open : str -> result Document)
    (pdf_path pdf_path' : str) :
  ~ In (TableEmpty pdf_path') (snd (extract_data_from_pdf fitz_open pdf_path)).
Proof.
  destruct (extract_cases fitz_open pdf_path)
    as [(m & E & Hm)|(doc & np & ip & rp & t & iso & rev &
                      _ & _ & _ & _ & _ & E)];
    rewrite E; cbn [snd]; [|tauto].
  intros [Em|[]]. subst m.
  destruct Hm as [(e & H)|[(e & H)|[H|[H|H]]]]; discriminate H.
Qed.

Lemma frame_of_not_empty (table_text iso rev : str) :
  table_rows table_text <> [] ->
  df_empty (frame_of table_text iso rev) = false.
Proof.
  intros Hne. unfold df_empty, frame_of; cbn [df_rows df_columns].
  destruct (table_rows table_text); [congruence|reflexivity].
Qed.

Lemma extract_some_not_empty (fitz_open : str -> result Document)
    (pdf_path : str) (df : DataFrame) (printed : list Msg) :
  extract_data_from_pdf fitz_open pdf_path = (Some df, printed) ->
  df_empty df = false.
Proof.
  intros H. apply extract_some in H
    as (_ & doc & np & ip & rp & t & iso & rev & _ & _ & _ & Hne & _ & ->).
  now apply frame_of_not_empty.
Qed.

(** ** Batch Aggregator *)

(** The loop appends the frames of the successful files to [all_data], in
    the order of the files, and prints their lines in that order. *)
Lemma collect_eq (w : World) (folder_path : str) (pdf_files : list str) :
  forall all_data,
    collect w folder_path pdf_files all_data
    = (all_data ++ successes w folder_path pdf_files,
       transcript w folder_path pdf_files).
Proof.
  induction pdf_files as [|pdf_file rest IH]; intros all_data.
  - cbn. now rewrite app_nil_r.
  - cbn [collect successes transcript List.flat_map].
    fold (successes w folder_path rest) (transcript w folder_path rest).
    unfold extracted at 1 2.
    destruct (extract_data_from_pdf (fitz_open w)
                (path_join w folder_path pdf_file)) as [[df|] printed] eqn:E;
      cbn [fst snd].
    + rewrite (extract_some_not_empty _ _ _ _ E); cbn [negb].
      rewrite IH, <- app_assoc. reflexivity.
    + rewrite IH. reflexivity.
Qed.

Lemma successes_app (w : World) (folder_path : str) (a b : list str) :
  successes w folder_path (a ++ b)
  = successes w folder_path a ++ successes w folder_path b.
Proof. apply flat_map_app. Qed.

(** The returned frames all carry the same labels. *)
Lemma successes_columns (w : World) (folder_path : str) (pdf_files : list str) :
  forall df, In df (successes w folder_path pdf_files) ->
             df_columns df = extended_columns
             /\ Forall (fun r => List.length r = 21%nat) (df_rows df).
Proof.
  intros df Hin. unfold successes in Hin.
  apply in_flat_map in Hin as (pdf_file & _ & Hin).
  unfold extracted in Hin.
  destruct (extract_data_from_pdf (fitz_open w)
              (path_join w folder_path pdf_file)) as [[df'|] printed] eqn:E;
    cbn [fst] in Hin; [|contradiction].
  destruct Hin as [<-|[]].
  apply extract_some in E
    as (_ & doc & np & ip & rp & t & iso & rev & _ & _ & _ & _ & H19 & ->).
  split; [reflexivity|].
  unfold frame_of; cbn [df_rows]. apply Forall_forall. intros r Hr.
  apply in_map_iff in Hr as (r0 & <- & Hr0).
  rewrite length_app, (H19 _ Hr0). reflexivity.
Qed.

Lemma parse_table_returns (pdf_path table_text iso rev : str) :
  exists out, parse_table pdf_path table_text iso rev = Ok out.
Proof.
  destruct (parse_table_cases pdf_path table_text iso rev)
    as [E|[E|(_ & _ & E)]]; rewrite E; eauto.
Qed.

(** ** Layout resolution, anchors and batch *)

(** C1. With the anchors found, the table region of set 1 is read first.
    When it has text, the ISO and revision texts are those of the regions
    of set 1 and the result is the parse of these three texts.  Only when
    it has none is the table region of set 2 read, and then the ISO and
    revision texts are those of set 2.  A returned frame is built from the
    three regions of one set, and when both table regions are empty the
    function returns [None] after reporting that no table text was found. *)
Theorem layout_resolution (fitz_open : str -> result Document) (pdf_path : str)
    (doc : Document) (nps_page iso_page rev_page : Page) :
  fitz_open pdf_path = Ok doc ->
  anchored doc nps_page iso_page rev_page ->
  let returned := extract_data_from_pdf fitz_open pdf_path in
  (forall e, extract_text_in_region nps_page table_rect_set1 = Raise e ->
             returned = (None, [PdfProcessingError e])) /\
  (forall table_text iso rev,
      table_text <> [] ->
      read_with nps_page iso_page rev_page
        table_rect_set1 iso_no_rect_set1 rev_no_rect_set1 table_text iso rev ->
      Ok returned = parse_table pdf_path table_text iso rev) /\
  (forall table_text iso rev,
      extract_text_in_region nps_page table_rect_set1 = Ok [] ->
      table_text <> [] ->
      read_with nps_page iso_page rev_page
        table_rect_set2 iso_no_rect_set2 rev_no_rect_set2 table_text iso rev ->
      Ok returned = parse_table pdf_path table_text iso rev) /\
  (extract_text_in_region nps_page table_rect_set1 = Ok [] ->
   extract_text_in_region nps_page table_rect_set2 = Ok [] ->
   returned = (None, [NoTableText pdf_path])) /\
  (forall df printed,
      returned = (Some df, printed) ->
      exists table_text iso rev,
        resolved nps_page iso_page rev_page table_text iso rev
        /\ df = frame_of table_text iso rev).
Proof.
  intros Hopen Hanch returned.
  assert (Hret : returned
    = match resolve_layout pdf_path nps_page iso_page rev_page with
      | Raise e => (None, [PdfProcessingError e])
      | Ok r => r
      end) by (apply extract_anchored with (doc := doc); assumption).
  assert (Hparsed : forall table_text iso rev,
    resolve_layout pdf_path nps_page iso_page rev_page
    = parse_table pdf_path table_text iso rev ->
    Ok returned = parse_table pdf_path table_text iso rev).
  { intros table_text iso rev E. rewrite Hret, E.
    destruct (parse_table_returns pdf_path table_text iso rev) as (out & ->).
    reflexivity. }
  split; [|split; [|split; [|split]]].
  - intros e He. rewrite Hret. unfold resolve_layout. now rewrite He.
  - intros table_text iso rev Hne Hread.
    apply Hparsed. now apply resolve_layout_set1.
  - intros table_text iso rev H1 Hne Hread.
    apply Hparsed. now apply resolve_layout_set2.
  - intros H1 H2. rewrite Hret.
    now rewrite (resolve_layout_no_text pdf_path nps_page iso_page rev_page).
  - intros df printed Hsome. rewrite Hret in Hsome.
    destruct (resolve_layout_cases pdf_path nps_page iso_page rev_page)
      as [(e & E)|[(m & E & _)|(table_text & iso & rev & Hres & _ & _ & E)]];
      rewrite E in Hsome; try discriminate.
    injection Hsome as <- _. eauto.
Qed.

Lemma anchored_sample (found : str -> bool) (text1 text2 : str) :
  found (lit "NPS") = true -> found (lit "TOXIC") = true ->
  found (lit "KOSHA") = true -> found (lit "ISO DWG. NO.") = true ->
  found (lit "REV. NO") = true ->
  let page := Samples.page_with found text1 text2 in
  anchored [page] page page page.
Proof.
  intros Hn Ht Hk Hi Hr page.
  exists [(0%nat, mkRect 10 10 20 20)], [(0%nat, mkRect 10 10 20 20)],
    [(0%nat, mkRect 10 10 20 20)], [(0%nat, mkRect 10 10 20 20)],
    [(0%nat, mkRect 10 10 20 20)], (0%nat, mkRect 10 10 20 20),
    (0%nat, mkRect 10 10 20 20), (0%nat, mkRect 10 10 20 20).
  split; [|repeat split; discriminate].
  unfold locate_keywords, find_text_position; cbn [find_text_position_from].
  unfold page, Samples.page_with; cbn [search_for bind].
  rewrite Hn, Ht, Hk, Hi, Hr. reflexivity.
Qed.

(** Both table regions of the sample have text, a different one in each:
    the frame holds the row and the two values of set 1. *)
Lemma layout_resolution_witness :
  Ok (extract_data_from_pdf Samples.open_sample (lit "in/both.pdf"))
  = parse_table (lit "in/both.pdf") (strip Samples.row19)
                (lit "ISO-1") (lit "R1")
  /\ extract_data_from_pdf Samples.open_sample (lit "in/blank.pdf")
     = (None, [NoTableText (lit "in/blank.pdf")]).
Proof.
  pose (both := Samples.page_with (fun _ => true) Samples.row19
                  (Samples.row19 ++ [newline] ++ Samples.row19)).
  pose (blank := Samples.page_with (fun _ => true) [] [Samples.space]).
  split.
  - destruct (layout_resolution Samples.open_sample (lit "in/both.pdf")
                Samples.doc_both both both both) as (_ & Hset1 & _).
    + reflexivity.
    + apply anchored_sample; reflexivity.
    + apply Hset1.
      * apply truthy_true; reflexivity.
      * repeat split; vm_compute; reflexivity.
  - destruct (layout_resolution Samples.open_sample (lit "in/blank.pdf")
                Samples.doc_blank blank blank blank) as (_ & _ & _ & Hnone & _).
    + reflexivity.
    + apply anchored_sample; reflexivity.
    + apply Hnone; vm_compute; reflexivity.
Defined.

(** The five searches of the anchor phase are those of [required_keywords]. *)
Lemma locate_keywords_searches (doc : Document) :
  (forall kw, In kw required_keywords ->
              exists anchors, find_text_position doc kw = Ok anchors) ->
  exists nps toxic kosha iso rev,
    locate_keywords doc = Ok (nps, toxic, kosha, iso, rev)
    /\ List.map (find_text_position doc) required_keywords
       = [Ok nps; Ok toxic; Ok kosha; Ok iso; Ok rev].
Proof.
  intros Hall.
  destruct (Hall (lit "NPS")) as (nps & Hn); [cbn; tauto|].
  destruct (Hall (lit "TOXIC")) as (toxic & Ht); [cbn; tauto|].
  destruct (Hall (lit "KOSHA")) as (kosha & Hk); [cbn; tauto|].
  destruct (Hall (lit "ISO DWG. NO.")) as (iso & Hi); [cbn; tauto|].
  destruct (Hall (lit "REV. NO")) as (rev & Hr); [cbn; tauto|].
  exists nps, toxic, kosha, iso, rev.
  unfold locate_keywords, required_keywords. cbn [List.map].
  rewrite Hn, Ht, Hk, Hi, Hr. split; reflexivity.
Qed.

Lemma extract_missing_keyword (fitz_open : str -> result Document)
    (pdf_path : str) (doc : Document) :
  fitz_open pdf_path = Ok doc ->
  (forall kw, In kw required_keywords ->
              exists anchors, find_text_position doc kw = Ok anchors) ->
  (exists kw, In kw required_keywords /\ find_text_position doc kw = Ok []) ->
  extract_data_from_pdf fitz_open pdf_path = (None, [KeywordsNotFound pdf_path]).
Proof.
  intros Hopen Hall (kw & Hin & Hkw).
  destruct (locate_keywords_searches doc Hall)
    as (nps & toxic & kosha & iso & rev & Hloc & Hmap).
  assert (Hempty : In (Ok []) [Ok nps; Ok toxic; Ok kosha; Ok iso; Ok rev]).
  { rewrite <- Hmap, <- Hkw. now apply in_map. }
  unfold extract_data_from_pdf. rewrite Hopen, Hloc.
  replace (truthy nps && truthy toxic && truthy kosha && truthy iso
           && truthy rev) with false; [reflexivity|].
  cbn [In] in Hempty.
  destruct Hempty as [H|[H|[H|[H|[H|[]]]]]]; injection H as ->; cbn [truthy];
    now rewrite ?andb_false_r.
Qed.

Lemma successes_skip (w : World) (folder_path pdf_file : str)
    (before after : list str) :
  fst (extracted w folder_path pdf_file) = None ->
  successes w folder_path (before ++ pdf_file :: after)
  = successes w folder_path (before ++ after).
Proof.
  intros H. rewrite !successes_app. f_equal.
  unfold successes at 1. cbn [List.flat_map]. now rewrite H.
Qed.

(** The keywords of the anchor phase are five, and not four markers
    followed by the two field labels. *)
Lemma required_keywords_not_four_markers :
  List.length required_keywords = 5%nat /\
  ~ (exists markers,
        List.length markers = 4%nat /\
        required_keywords = markers ++ [lit "ISO DWG. NO."; lit "REV. NO"]).
Proof.
  split; [reflexivity|].
  intros (markers & Hlen & E).
  apply (f_equal (@List.length str)) in E.
  rewrite length_app, Hlen in E. discriminate E.
Qed.

(** C5, amended. The anchor phase searches five keywords: the three
    markers "NPS", "TOXIC" and "KOSHA" and the two field labels
    "ISO DWG. NO." and "REV. NO".  When a document opens, every search
    returns and one of the five has no anchor, the extraction returns
    [None] after reporting the missing keywords, whatever the regions of the
    document hold, and the document adds no frame to the batch. *)
Theorem missing_anchor (w : World) (folder_path pdf_file : str) (doc : Document) :
  let pdf_path := path_join w folder_path pdf_file in
  fitz_open w pdf_path = Ok doc ->
  (forall kw, In kw required_keywords ->
              exists anchors, find_text_position doc kw = Ok anchors) ->
  (exists kw, In kw required_keywords /\ find_text_position doc kw = Ok []) ->
  required_keywords
  = [lit "NPS"; lit "TOXIC"; lit "KOSHA"] ++ [lit "ISO DWG. NO."; lit "REV. NO"]
  /\ extract_data_from_pdf (fitz_open w) pdf_path
     = (None, [KeywordsNotFound pdf_path])
  /\ forall before after all_data,
       fst (collect w folder_path (before ++ pdf_file :: after) all_data)
       = fst (collect w folder_path (before ++ after) all_data).
Proof.
  intros pdf_path Hopen Hall Hmissing.
  assert (Hnone : extract_data_from_pdf (fitz_open w) pdf_path
                  = (None, [KeywordsNotFound pdf_path]))
    by (apply extract_missing_keyword with (doc := doc); assumption).
  split; [reflexivity|]. split; [exact Hnone|].
  intros before after all_data. rewrite !collect_eq. cbn [fst]. f_equal.
  apply successes_skip. unfold extracted. fold pdf_path. now rewrite Hnone.
Qed.

(** The sample without "REV. NO", its table region well formed, between
    two documents that parse. *)
Lemma missing_anchor_witness :
  let w := Samples.world [] in
  extract_data_from_pdf (fitz_open w) (lit "in/norev.pdf")
  = (None, [KeywordsNotFound (lit "in/norev.pdf")])
  /\ fst (collect w (lit "in")
            [lit "both.pdf"; lit "norev.pdf"; lit "fallback.PDF"] [])
     = fst (collect w (lit "in") [lit "both.pdf"; lit "fallback.PDF"] []).
Proof.
  intros w.
  destruct (missing_anchor w (lit "in") (lit "norev.pdf") Samples.doc_no_rev)
    as (_ & Hnone & Hskip).
  - reflexivity.
  - intros kw Hin. cbn in Hin.
    destruct Hin as [<-|[<-|[<-|[<-|[<-|[]]]]]]; eexists; vm_compute;
      reflexivity.
  - exists (lit "REV. NO"). split; [cbn; tauto|vm_compute; reflexivity].
  - split; [exact Hnone|].
    exact (Hskip [lit "both.pdf"] [lit "fallback.PDF"] []).
Defined.

(** The batch in closed form: the frames and the lines of the files of the
    listing that end in ".pdf", in the order of the listing. *)
Lemma process_pdfs_in_folder_eq (w : World) (typed : str) :
  process_pdfs_in_folder w typed
  = let folder_path := strip typed in
    if negb (path_exists w folder_path) then Ok (None, [FolderNotFound])
    else
      match listdir w folder_path with
      | Raise e => Raise e
      | Ok names =>
          let pdf_files := List.filter is_pdf names in
          let printed := transcript w folder_path pdf_files in
          let output_csv := path_join w folder_path (lit "extracted_data.csv") in
          match pdf_files, successes w folder_path pdf_files with
          | [], _ => Ok (None, [NoPdfInFolder])
          | _ :: _, [] => Ok (None, printed ++ [NoDataExtracted])
          | _ :: _, (_ :: _) as frames =>
              Ok (Some (output_csv, pd_concat frames),
                  printed ++ [CsvSaved output_csv])
          end
      end.
Proof.
  unfold process_pdfs_in_folder. cbn zeta.
  destruct (negb (path_exists w (strip typed))); [reflexivity|].
  destruct (listdir w (strip typed)) as [names|e]; [|reflexivity].
  cbn [bind].
  destruct (List.filter is_pdf names) as [|f files] eqn:Efiles; [reflexivity|].
  cbn [truthy negb]. rewrite collect_eq. cbn [app].
  destruct (successes w (strip typed) (f :: files)); reflexivity.
Qed.

(** C7. A returned frame has the 19 labels of the schema followed by
    ISO_NO and REV.NO, and each of its rows is a row of 19 fields of the
    table text followed by the ISO text and the revision text of the
    document, the same two on every row.  The frame written by the batch
    has these 21 labels and rows of 21 fields. *)
Theorem rows_carry_iso_and_rev :
  (forall (fitz_open : str -> result Document) pdf_path df printed,
      extract_data_from_pdf fitz_open pdf_path = (Some df, printed) ->
      df_columns df = columns ++ [lit "ISO_NO"; lit "REV.NO"] /\
      List.length (df_columns df) = 21%nat /\
      exists doc nps_page iso_page rev_page table_text iso rev,
        fitz_open pdf_path = Ok doc
        /\ anchored doc nps_page iso_page rev_page
        /\ resolved nps_page iso_page rev_page table_text iso rev
        /\ (forall r, In r (table_rows table_text) -> List.length r = 19%nat)
        /\ df_rows df
           = List.map (fun r => r ++ [iso; rev]) (table_rows table_text)) /\
  (forall w typed output_csv final_df printed,
      process_pdfs_in_folder w typed
      = Ok (Some (output_csv, final_df), printed) ->
      df_columns final_df = columns ++ [lit "ISO_NO"; lit "REV.NO"] /\
      Forall (fun r => List.length r = 21%nat) (df_rows final_df)).
Proof.
  split.
  - intros fitz_open pdf_path df printed H.
    apply extract_some in H
      as (_ & doc & np & ip & rp & t & iso & rev & Ho & Ha & Hres & _ & H19 & ->).
    split; [reflexivity|]. split; [reflexivity|].
    exists doc, np, ip, rp, t, iso, rev. auto 10.
  - intros w typed output_csv final_df printed H.
    rewrite process_pdfs_in_folder_eq in H. cbn zeta in H.
    destruct (negb (path_exists w (strip typed))); [discriminate|].
    destruct (listdir w (strip typed)) as [names|e]; [|discriminate].
    destruct (List.filter is_pdf names) as [|f files]; [discriminate|].
    pose proof (successes_columns w (strip typed) (f :: files)) as Hall.
    destruct (successes w (strip typed) (f :: files)) as [|df frames];
      [discriminate|].
    injection H as _ <- _. unfold pd_concat. cbn [df_columns df_rows].
    split.
    + apply (Hall df). now left.
    + apply Forall_forall. intros r Hr.
      apply in_concat in Hr as (rows & Hrows & Hr).
      apply in_map_iff in Hrows as (df' & <- & Hdf').
      destruct (Hall df' Hdf') as [_ H21].
      rewrite Forall_forall in H21. now apply H21.
Qed.

(** The sample read with set 2: one row, ending in the values of set 2. *)
Lemma rows_carry_iso_and_rev_witness :
  exists df,
    extract_data_from_pdf Samples.open_sample (lit "in/fallback.PDF")
    = (Some df, [])
    /\ df_columns df = columns ++ [lit "ISO_NO"; lit "REV.NO"]
    /\ df_rows df = [List.repeat (lit "A1") 19 ++ [lit "ISO-2"; lit "R2"]].
Proof.
  destruct (extract_data_from_pdf Samples.open_sample (lit "in/fallback.PDF"))
    as [[df|] printed] eqn:E; [|vm_compute in E; discriminate E].
  destruct rows_carry_iso_and_rev as [Hone _].
  destruct (Hone Samples.open_sample (lit "in/fallback.PDF") df printed E)
    as (Hcols & _ & _).
  exists df. vm_compute in E. injection E as <- <-.
  split; [reflexivity|]. split; [exact Hcols|reflexivity].
Defined.

(** C8. With the folder found and listed, the batch always returns: a file
    that fails gives its progress line and the line of its failure, and the
    loop goes on with the next file.  The frame written is the
    concatenation of the frames of the files that succeed, file after file
    in the order processed, the rows of each file in their order.  When no
    file succeeds no CSV is written and the line that says so is printed,
    not the line of the saved CSV. *)
Theorem batch_aggregation (w : World) (typed : str) (names : list str) :
  let folder_path := strip typed in
  let pdf_files := List.filter is_pdf names in
  let frames := successes w folder_path pdf_files in
  let printed := transcript w folder_path pdf_files in
  let output_csv := path_join w folder_path (lit "extracted_data.csv") in
  path_exists w folder_path = true ->
  listdir w folder_path = Ok names ->
  (forall all_data,
      collect w folder_path pdf_files all_data = (all_data ++ frames, printed)) /\
  (forall pdf_file,
      In pdf_file pdf_files ->
      fst (extracted w folder_path pdf_file) = None ->
      exists m, snd (extracted w folder_path pdf_file) = [m]
                /\ is_failure (path_join w folder_path pdf_file) m) /\
  (pdf_files = [] ->
   process_pdfs_in_folder w typed = Ok (None, [NoPdfInFolder])) /\
  (pdf_files <> [] -> frames = [] ->
   process_pdfs_in_folder w typed = Ok (None, printed ++ [NoDataExtracted])) /\
  (frames <> [] ->
   process_pdfs_in_folder w typed
   = Ok (Some (output_csv, pd_concat frames), printed ++ [CsvSaved output_csv])
   /\ df_rows (pd_concat frames) = List.concat (List.map df_rows frames)).
Proof.
  intros folder_path pdf_files frames printed output_csv Hexists Hlist.
  assert (Hrun := process_pdfs_in_folder_eq w typed).
  subst folder_path pdf_files frames printed output_csv.
  cbn zeta in Hrun. rewrite Hexists, Hlist in Hrun. cbn [negb] in Hrun.
  split; [intros all_data; apply collect_eq|].
  split.
  { intros pdf_file _ Hnone. unfold extracted in *.
    destruct (extract_data_from_pdf (fitz_open w)
                (path_join w (strip typed) pdf_file)) as [value lines] eqn:E.
    cbn [fst snd] in *. subst value. now apply extract_none in E. }
  split; [|split].
  - intros E. rewrite Hrun, E. reflexivity.
  - intros Hne E. rewrite Hrun.
    destruct (List.filter is_pdf names); [congruence|].
    now rewrite E.
  - intros Hne. split; [|reflexivity].
    rewrite Hrun.
    destruct (List.filter is_pdf names) as [|f files];
      [now contradiction Hne|].
    destruct (successes w (strip typed) (f :: files)); [congruence|reflexivity].
Qed.

(** Five names in the listing: one is not a PDF, one does not open, one has
    a short row.  The CSV holds the rows of the two others, in the order of
    the listing. *)
Lemma batch_aggregation_witness :
  process_pdfs_in_folder (Samples.world Samples.names_mixed) (lit " in ")
  = Ok (Some (lit "in/extracted_data.csv",
              mkDataFrame extended_columns
                [Samples.row_of (lit "ISO-1") (lit "R1");
                 Samples.row_of (lit "ISO-2") (lit "R2")]),
        [Processing (lit "in/both.pdf");
         Processing (lit "in/gone.pdf"); PdfProcessingError (FitzError 1);
         Processing (lit "in/fallback.PDF");
         Processing (lit "in/short.pdf");
         TableShapeMismatch (lit "in/short.pdf");
         CsvSaved (lit "in/extracted_data.csv")]).
Proof.
  destruct (batch_aggregation (Samples.world Samples.names_mixed) (lit " in ")
              Samples.names_mixed eq_refl eq_refl) as (_ & _ & _ & _ & Hsome).
  destruct Hsome as [Hrun _].
  - apply truthy_true. vm_compute. reflexivity.
  - rewrite Hrun. vm_compute. reflexivity.
Defined.

(** C9, on a listing that is not sorted: the files are processed, and
    their rows written, in the order of the listing, where the selection of
    [add_gui.py] sorts the same names. *)
Theorem listing_order_not_sorted :
  process_pdfs_in_folder (Samples.world Samples.names_unsorted) (lit "in")
  = Ok (Some (lit "in/extracted_data.csv",
              mkDataFrame extended_columns
                [Samples.row_of (lit "ISO-2") (lit "R2");
                 Samples.row_of (lit "ISO-1") (lit "R1")]),
        [Processing (lit "in/fallback.PDF"); Processing (lit "in/both.pdf");
         CsvSaved (lit "in/extracted_data.csv")])
  /\ List.filter is_pdf Samples.names_unsorted
     = [lit "fallback.PDF"; lit "both.pdf"]
  /\ AddGui.pdf_files Samples.names_unsorted
     = [lit "both.pdf"; lit "fallback.PDF"].
Proof. repeat split; vm_compute; reflexivity. Qed.

(** The files of a listing are processed in the order of the listing. *)
Lemma processing_order (w : World) (folder_path : str) (pdf_files : list str) :
  List.filter (fun m => match m with Processing _ => true | _ => false end)
    (transcript w folder_path pdf_files)
  = List.map (fun pdf_file => Processing (path_join w folder_path pdf_file))
      pdf_files.
Proof.
  induction pdf_files as [|pdf_file rest IH]; [reflexivity|].
  unfold transcript in *. cbn [List.flat_map List.map app List.filter].
  rewrite filter_app, IH. f_equal.
  unfold extracted.
  destruct (extract_data_from_pdf (fitz_open w)
              (path_join w folder_path pdf_file)) as [[df|] printed] eqn:E.
  - apply extract_some in E as [-> _]. reflexivity.
  - apply extract_none in E as (m & -> & Hm). cbn [snd List.filter].
    destruct Hm as [(e & ->)|[(e & ->)|[->|[->|[->| ->]]]]]; reflexivity.
Qed.

(** C10. The extraction always returns, and returns [None] with every line
    of failure: a document that does not open, a search that raises,
    missing keywords, no table text, an empty table, a shape mismatch and
    an exception while the regions are read.  [None] comes with exactly
    one such line, a frame with none. *)
Theorem extract_failure_value (fitz_open : str -> result Document)
    (pdf_path : str) :
  let returned := extract_data_from_pdf fitz_open pdf_path in
  (forall e, fitz_open pdf_path = Raise e ->
             returned = (None, [PdfProcessingError e])) /\
  (forall doc e, fitz_open pdf_path = Ok doc ->
                 locate_keywords doc = Raise e ->
                 returned = (None, [KeywordSearchError e])) /\
  (forall m, In m (snd returned) ->
             is_failure pdf_path m /\ returned = (None, [m])) /\
  (fst returned = None ->
   exists m, snd returned = [m] /\ is_failure pdf_path m) /\
  (forall df, fst returned = Some df -> snd returned = []).
Proof.
  cbn zeta. split; [|split; [|split; [|split]]].
  - intros e He. unfold extract_data_from_pdf. now rewrite He.
  - intros doc e Hopen He. unfold extract_data_from_pdf.
    now rewrite Hopen, He.
  - intros m Hin.
    destruct (extract_data_from_pdf fitz_open pdf_path)
      as [[df|] printed] eqn:E.
    + apply extract_some in E as [-> _]. contradiction.
    + apply extract_none in E as (m' & -> & Hm').
      destruct Hin as [<-|[]]. auto.
  - destruct (extract_data_from_pdf fitz_open pdf_path)
      as [[df|] printed] eqn:E; cbn [fst snd]; [discriminate|].
    intros _. now apply extract_none in E.
  - intros df.
    destruct (extract_data_from_pdf fitz_open pdf_path)
      as [[df'|] printed] eqn:E; cbn [fst snd]; [|discriminate].
    intros _. now apply extract_some in E as [-> _].
Qed.

(** The samples that fail, one for each line but that of the empty table:
    the value returned is [None] for all. *)
Lemma extract_failure_value_witness :
  List.map (fun pdf_path => extract_data_from_pdf Samples.open_sample pdf_path)
    [lit "in/gone.pdf"; lit "in/locked.pdf"; lit "in/norev.pdf";
     lit "in/blank.pdf"; lit "in/short.pdf"]
  = [(None, [PdfProcessingError (FitzError 1)]);
     (None, [KeywordSearchError (FitzError 2)]);
     (None, [KeywordsNotFound (lit "in/norev.pdf")]);
     (None, [NoTableText (lit "in/blank.pdf")]);
     (None, [TableShapeMismatch (lit "in/short.pdf")])].
Proof.
  cbn [List.map].
  destruct (extract_failure_value Samples.open_sample (lit "in/gone.pdf"))
    as (Hgone & _).
  destruct (extract_failure_value Samples.open_sample (lit "in/locked.pdf"))
    as (_ & Hlocked & _).
  destruct (extract_failure_value Samples.open_sample (lit "in/norev.pdf"))
    as (_ & _ & Hnorev & _).
  destruct (extract_failure_value Samples.open_sample (lit "in/blank.pdf"))
    as (_ & _ & Hblank & _).
  destruct (extract_failure_value Samples.open_sample (lit "in/short.pdf"))
    as (_ & _ & Hshort & _).
  rewrite (Hgone (FitzError 1) eq_refl).
  rewrite (Hlocked Samples.doc_search_fails (FitzError 2) eq_refl eq_refl).
  rewrite (proj2 (Hnorev (KeywordsNotFound (lit "in/norev.pdf"))
                    (or_introl eq_refl))).
  rewrite (proj2 (Hblank (NoTableText (lit "in/blank.pdf"))
                    (or_introl eq_refl))).
  rewrite (proj2 (Hshort (TableShapeMismatch (lit "in/short.pdf"))
                    (or_introl eq_refl))).
  reflexivity.
Defined.

(** ** The selection of the files *)

Lemma startswith_iff (s prefix : str) :
  startswith s prefix = true <-> exists rest, s = prefix ++ rest.
Proof.
  revert s. induction prefix as [|p prefix IH]; intros s; cbn [startswith].
  - split; [intros _; now exists s|intros _; now destruct s].
  - destruct s as [|c s]; cbn [startswith].
    + split; [discriminate|intros (rest & E); discriminate E].
    + rewrite andb_true_iff, N.eqb_eq, IH. split.
      * intros (-> & rest & ->). now exists rest.
      * intros (rest & E). injection E as -> ->. eauto.
Qed.

(** The files selected: those whose name, lowered, ends in ".pdf". *)
Lemma is_pdf_iff (f : str) :
  is_pdf f = true
  <-> exists stem ext, f = stem ++ ext /\ lower ext = lit ".pdf".
Proof.
  unfold is_pdf, endswith. rewrite startswith_iff. split.
  - intros (rest & E).
    apply (f_equal (@List.rev char)) in E.
    rewrite rev_involutive, rev_app_distr, rev_involutive in E.
    unfold lower in E. apply map_eq_app in E as (stem & ext & -> & _ & Hext).
    now exists stem, ext.
  - intros (stem & ext & -> & Hext).
    exists (List.rev (lower stem)).
    unfold lower in *. now rewrite map_app, rev_app_distr, Hext.
Qed.

(** * Further properties of [main.py] *)

(** ** Anchor Locator *)

Lemma find_text_position_from_indices (search_text : str) (pages : list Page) :
  forall page_index anchors,
    find_text_position_from page_index pages search_text = Ok anchors ->
    Forall (fun a => page_index <= fst a < page_index + List.length pages)%nat
           anchors
    /\ StronglySorted le (List.map fst anchors).
Proof.
  induction pages as [|page rest IH]; intros page_index anchors H.
  - injection H as <-. split; constructor.
  - cbn [find_text_position_from] in H.
    destruct (search_for page search_text) as [bboxes|e]; [|discriminate].
    cbn [bind] in H.
    destruct (find_text_position_from (S page_index) rest search_text)
      as [positions|e] eqn:Erest; [|discriminate].
    cbn [bind] in H. injection H as <-.
    destruct (IH _ _ Erest) as [Hbound Hsorted].
    split.
    + apply Forall_app. split.
      * apply Forall_forall. intros a Ha.
        apply in_map_iff in Ha as (bbox & <- & _). cbn. lia.
      * eapply Forall_impl; [|exact Hbound]. cbn. intros a. lia.
    + rewrite map_app, map_map. cbn [fst].
      induction bboxes as [|b bboxes IHb]; cbn; [exact Hsorted|].
      constructor; [exact IHb|].
      apply Forall_app. split.
      * apply Forall_forall. intros i Hi.
        apply in_map_iff in Hi as (bbox & <- & _). lia.
      * apply Forall_forall. intros i Hi.
        apply in_map_iff in Hi as (a & <- & Ha).
        rewrite Forall_forall in Hbound. apply Hbound in Ha. lia.
Qed.

(** X1. The anchors [find_text_position] returns come in page order, and
    each carries the index of a page of the document: indexing the
    document with it never fails. *)
Theorem anchors_in_page_order (doc : Document) (search_text : str)
    (anchors : list (nat * Rect)) :
  find_text_position doc search_text = Ok anchors ->
  StronglySorted le (List.map fst anchors)
  /\ forall a, In a anchors -> exists page, getitem doc (fst a) = Ok page.
Proof.
  intros H. apply find_text_position_from_indices in H as [Hbound Hsorted].
  split; [exact Hsorted|].
  intros a Ha. rewrite Forall_forall in Hbound. apply Hbound in Ha.
  unfold getitem.
  destruct (nth_error doc (fst a)) as [page|] eqn:E; [eauto|].
  apply nth_error_None in E. lia.
Qed.

(** A document of three pages with matches on the second and the third. *)
Lemma anchors_in_page_order_witness :
  let hit := Samples.page_with (fun _ => true) [] [] in
  let miss := Samples.page_with (fun _ => false) [] [] in
  StronglySorted le [1; 2]%nat
  /\ forall a, In a [(1%nat, mkRect 10 10 20 20); (2%nat, mkRect 10 10 20 20)] ->
               exists page, getitem [miss; hit; hit] (fst a) = Ok page.
Proof.
  intros hit miss.
  exact (anchors_in_page_order [miss; hit; hit] (lit "NPS")
           [(1%nat, mkRect 10 10 20 20); (2%nat, mkRect 10 10 20 20)] eq_refl).
Defined.

Lemma first_anchor_from (search_text : str) (pages : list Page) :
  forall page_index i r rest,
    find_text_position_from page_index pages search_text = Ok ((i, r) :: rest) ->
    exists page b bboxes,
      (page_index <= i)%nat
      /\ nth_error pages (i - page_index) = Some page
      /\ search_for page search_text = Ok (b :: bboxes)
      /\ r = get_corrected_rect page b
      /\ forall j earlier,
           (j < i - page_index)%nat -> nth_error pages j = Some earlier ->
           search_for earlier search_text = Ok [].
Proof.
  induction pages as [|page pages IH]; intros page_index i r rest H.
  - discriminate H.
  - cbn [find_text_position_from] in H.
    destruct (search_for page search_text) as [bboxes|e] eqn:Esearch;
      [|discriminate].
    cbn [bind] in H.
    destruct (find_text_position_from (S page_index) pages search_text)
      as [positions|e] eqn:Erest; [|discriminate].
    cbn [bind] in H. injection H as H.
    destruct bboxes as [|b bboxes]; cbn [List.map app] in H.
    + subst positions.
      destruct (IH _ _ _ _ Erest) as (p & b & bs & Hle & Hnth & Hs & Hr & Hbefore).
      exists p, b, bs.
      replace (i - page_index)%nat with (S (i - S page_index)) by lia.
      split; [lia|]. split; [exact Hnth|]. split; [exact Hs|].
      split; [exact Hr|].
      intros [|j] earlier Hj Hearlier; cbn in Hearlier.
      * injection Hearlier as <-. exact Esearch.
      * apply (Hbefore j); [lia|exact Hearlier].
    + injection H as <- <- _.
      exists page, b, bboxes. rewrite Nat.sub_diag.
      split; [lia|]. split; [reflexivity|]. split; [exact Esearch|].
      split; [reflexivity|]. intros j earlier Hj. lia.
Qed.

(** X2. First anchor wins: the first anchor of [find_text_position] is the
    first box, corrected, of the first page of the document on which the
    search finds something; every page before it has no match. *)
Theorem first_anchor_is_first_match (doc : Document) (search_text : str)
    (i : nat) (r : Rect) (rest : list (nat * Rect)) :
  find_text_position doc search_text = Ok ((i, r) :: rest) ->
  exists page b bboxes,
    nth_error doc i = Some page
    /\ search_for page search_text = Ok (b :: bboxes)
    /\ r = get_corrected_rect page b
    /\ forall j earlier,
         (j < i)%nat -> nth_error doc j = Some earlier ->
         search_for earlier search_text = Ok [].
Proof.
  intros H. apply first_anchor_from in H
    as (page & b & bboxes & _ & Hnth & Hs & Hr & Hbefore).
  rewrite Nat.sub_0_r in *. exists page, b, bboxes. auto.
Qed.

Lemma first_anchor_is_first_match_witness :
  let hit := Samples.page_with (fun _ => true) [] [] in
  let miss := Samples.page_with (fun _ => false) [] [] in
  exists page b bboxes,
    nth_error [miss; hit; hit] 1 = Some page
    /\ search_for page (lit "NPS") = Ok (b :: bboxes)
    /\ mkRect 10 10 20 20 = get_corrected_rect page b
    /\ forall j earlier,
         (j < 1)%nat -> nth_error [miss; hit; hit] j = Some earlier ->
         search_for earlier (lit "NPS") = Ok [].
Proof.
  intros hit miss.
  exact (first_anchor_is_first_match [miss; hit; hit] (lit "NPS") 1
           (mkRect 10 10 20 20) [(2%nat, mkRect 10 10 20 20)] eq_refl).
Defined.



(** ** Runs without exceptions *)







(** ** Exits that are never taken *)

(** X5. The exit of lines 116-118 is dead: whatever the document, the line
    that reports an empty table is never printed, since a table text that
    passes the test of line 87 or 96 has a character that is not whitespace
    and so a row. *)
Theorem empty_table_exit_is_dead (fitz_open : str -> result Document)
    (pdf_path : str) :
  forall m, In m (snd (extract_data_from_pdf fitz_open pdf_path)) ->
            forall pdf_path', m <> TableEmpty pdf_path'.
Proof.
  intros m Hin pdf_path' ->.
  exact (extract_never_empty_table fitz_open pdf_path pdf_path' Hin).
Qed.

(** X6. The guard [not df.empty] of line 155 never turns a frame away: a
    frame returned by [extract_data_from_pdf] has at least one row, so
    every file that returns a frame has it appended. *)
Theorem returned_frame_is_never_empty (w : World) (folder_path pdf_file : str)
    (df : DataFrame) (rest : list str) (all_data : list DataFrame) :
  fst (extracted w folder_path pdf_file) = Some df ->
  df_empty df = false
  /\ df_rows df <> []
  /\ fst (collect w folder_path (pdf_file :: rest) all_data)
     = fst (collect w folder_path rest (all_data ++ [df])).
Proof.
  intros H. unfold extracted in H.
  destruct (extract_data_from_pdf (fitz_open w)
              (path_join w folder_path pdf_file)) as [value printed] eqn:E.
  cbn [fst] in H. subst value.
  pose proof (extract_some_not_empty _ _ _ _ E) as Hne.
  split; [exact Hne|]. split.
  - intros Hrows. unfold df_empty in Hne. rewrite Hrows in Hne. discriminate.
  - cbn [collect]. rewrite E, Hne. cbn [negb].
    destruct (collect w folder_path rest (all_data ++ [df])). reflexivity.
Qed.

Lemma returned_frame_is_never_empty_witness :
  exists df,
    fst (extracted (Samples.world []) (lit "in") (lit "both.pdf")) = Some df
    /\ df_empty df = false.
Proof.
  destruct (fst (extracted (Samples.world []) (lit "in") (lit "both.pdf")))
    as [df|] eqn:E; [|vm_compute in E; discriminate E].
  exists df. split; [reflexivity|].
  exact (proj1 (returned_frame_is_never_empty (Samples.world []) (lit "in")
                  (lit "both.pdf") df [] [] E)).
Defined.

(** ** What the returned frame holds *)

Lemma lstrip_headed (s : str) : headed (lstrip s) = true.
Proof.
  induction s as [|c s IH]; [reflexivity|].
  cbn [lstrip]. destruct (isspace c) eqn:E; [exact IH|].
  cbn [headed]. now rewrite E.
Qed.

Lemma lstrip_fixed (s : str) : headed s = true -> lstrip s = s.
Proof.
  destruct s as [|c s]; [reflexivity|].
  cbn [headed lstrip]. intros H. apply negb_true_iff in H. now rewrite H.
Qed.

Lemma lstrip_suffix (s : str) : exists gap, s = gap ++ lstrip s.
Proof.
  induction s as [|c s (gap & IH)]; [now exists []|].
  cbn [lstrip]. destruct (isspace c).
  - exists (c :: gap). cbn. now rewrite <- IH.
  - now exists [].
Qed.

Lemma strip_headed (s : str) :
  headed (strip s) = true /\ headed (List.rev (strip s)) = true.
Proof.
  unfold strip. rewrite rev_involutive.
  split; [|apply lstrip_headed].
  destruct (lstrip_suffix (List.rev (lstrip s))) as (gap & E).
  pose proof (lstrip_headed s) as Ha.
  apply (f_equal (@List.rev char)) in E.
  rewrite rev_involutive, rev_app_distr in E.
  destruct (List.rev (lstrip (List.rev (lstrip s)))) as [|c b]; [reflexivity|].
  rewrite E in Ha. exact Ha.
Qed.

(** [strip] leaves a stripped string as it is. *)
Lemma strip_strip (s : str) : strip (strip s) = strip s.
Proof.
  destruct (strip_headed s) as [Hhead Hlast].
  unfold strip at 1.
  rewrite (lstrip_fixed _ Hhead), (lstrip_fixed _ Hlast).
  apply rev_involutive.
Qed.







(** ** The batch and the order of the listing *)

Lemma extract_data_from_pdf_ext (open1 open2 : str -> result Document)
    (pdf_path : str) :
  open1 pdf_path = open2 pdf_path ->
  extract_data_from_pdf open1 pdf_path = extract_data_from_pdf open2 pdf_path.
Proof. unfold extract_data_from_pdf. now intros ->. Qed.

Lemma successes_ext (w1 w2 : World) (folder_path : str) (pdf_files : list str) :
  (forall a b, path_join w1 a b = path_join w2 a b) ->
  (forall p, fitz_open w1 p = fitz_open w2 p) ->
  successes w1 folder_path pdf_files = successes w2 folder_path pdf_files.
Proof.
  intros Hjoin Hopen. unfold successes.
  apply flat_map_ext. intros pdf_file. unfold extracted.
  rewrite Hjoin. now rewrite (extract_data_from_pdf_ext _ _ _ (Hopen _)).
Qed.

Lemma pd_concat_columns (w : World) (folder_path : str) (pdf_files : list str)
    (df : DataFrame) (frames : list DataFrame) :
  successes w folder_path pdf_files = df :: frames ->
  df_columns (pd_concat (df :: frames)) = extended_columns.
Proof.
  intros E. cbn [pd_concat df_columns].
  apply (successes_columns w folder_path pdf_files). rewrite E. now left.
Qed.

(** X9. The rows written do not depend on the order of the listing, nor on
    the names in it that do not end in ".pdf": two runs on the same
    documents whose selected names are a permutation of each other write
    the same CSV path with the same columns and the same rows up to their
    order, or both write nothing. *)
Theorem batch_rows_up_to_order (w1 w2 : World) (typed : str)
    (names1 names2 : list str) :
  let folder_path := strip typed in
  path_exists w1 folder_path = true ->
  path_exists w2 folder_path = true ->
  listdir w1 folder_path = Ok names1 ->
  listdir w2 folder_path = Ok names2 ->
  (forall a b, path_join w1 a b = path_join w2 a b) ->
  (forall p, fitz_open w1 p = fitz_open w2 p) ->
  Permutation (List.filter is_pdf names1) (List.filter is_pdf names2) ->
  match process_pdfs_in_folder w1 typed, process_pdfs_in_folder w2 typed with
  | Ok (Some (csv1, df1), _), Ok (Some (csv2, df2), _) =>
      csv1 = csv2 /\ df_columns df1 = df_columns df2
      /\ Permutation (df_rows df1) (df_rows df2)
  | Ok (None, _), Ok (None, _) => True
  | _, _ => False
  end.
Proof.
  intros folder_path He1 He2 Hl1 Hl2 Hjoin Hopen Hperm.
  subst folder_path.
  rewrite !process_pdfs_in_folder_eq. cbn zeta.
  rewrite He1, He2, Hl1, Hl2. cbn [negb].
  assert (Hframes : Permutation
    (successes w1 (strip typed) (List.filter is_pdf names1))
    (successes w2 (strip typed) (List.filter is_pdf names2))).
  { rewrite (successes_ext w1 w2) by assumption.
    unfold successes. now apply Permutation_flat_map. }
  destruct (List.filter is_pdf names1) as [|f1 files1] eqn:E1.
  { apply Permutation_nil in Hperm. now rewrite Hperm. }
  destruct (List.filter is_pdf names2) as [|f2 files2] eqn:E2.
  { symmetry in Hperm. apply Permutation_nil in Hperm. discriminate Hperm. }
  destruct (successes w1 (strip typed) (f1 :: files1)) as [|d1 frames1] eqn:S1.
  { apply Permutation_nil in Hframes. now rewrite Hframes. }
  destruct (successes w2 (strip typed) (f2 :: files2)) as [|d2 frames2] eqn:S2.
  { symmetry in Hframes. apply Permutation_nil in Hframes.
    discriminate Hframes. }
  split; [apply Hjoin|]. split.
  - rewrite (pd_concat_columns w1 _ _ _ _ S1).
    now rewrite (pd_concat_columns w2 _ _ _ _ S2).
  - unfold pd_concat. cbn [df_rows].
    rewrite <- !flat_map_concat_map. now apply Permutation_flat_map.
Qed.

Lemma batch_rows_up_to_order_witness :
  match process_pdfs_in_folder (Samples.world Samples.names_mixed) (lit "in"),
        process_pdfs_in_folder (Samples.world names_mixed_again) (lit "in") with
  | Ok (Some (csv1, df1), _), Ok (Some (csv2, df2), _) =>
      csv1 = csv2 /\ df_columns df1 = df_columns df2
      /\ Permutation (df_rows df1) (df_rows df2)
  | Ok (None, _), Ok (None, _) => True
  | _, _ => False
  end.
Proof.
  apply (batch_rows_up_to_order
           (Samples.world Samples.names_mixed) (Samples.world names_mixed_again)
           (lit "in") Samples.names_mixed names_mixed_again);
    try reflexivity.
  vm_compute.
  match goal with
  | |- Permutation [?a; ?b; ?c; ?d] _ =>
      apply (Permutation_cons_app [c; d; b] [] a);
      apply (Permutation_cons_app [c; d] [] b);
      apply Permutation_refl
  end.
Defined.

(** ** The selection of the files, character by character *)

Lemma lower_char_eq (c lowered : char) :
  lower_char c = lowered ->
  c = lowered \/ ((65 <= c <= 90)%N /\ lowered = (c + 32)%N).
Proof.
  unfold lower_char.
  destruct (65 <=? c)%N eqn:E1; destruct (c <=? 90)%N eqn:E2; cbn [andb];
    intros <-; auto.
  right. apply N.leb_le in E1, E2. auto.
Qed.

(** X10. A name of the listing is selected exactly when its last four
    characters are a dot and the letters p, d, f, each in either case;
    what stands before them is not looked at, so the bare name ".pdf" is
    selected too. *)
Theorem selected_by_extension (f : str) :
  is_pdf f = true
  <-> exists stem p d f',
        f = stem ++ [46%N; p; d; f']
        /\ (p = 80%N \/ p = 112%N) /\ (d = 68%N \/ d = 100%N)
        /\ (f' = 70%N \/ f' = 102%N).
Proof.
  rewrite is_pdf_iff. split.
  - intros (stem & ext & -> & Hext).
    destruct ext as [|a [|b [|c [|e [|x ext]]]]]; try discriminate Hext.
    cbn in Hext. injection Hext as Ha Hb Hc He.
    apply lower_char_eq in Ha, Hb, Hc, He.
    exists stem, b, c, e.
    assert (a = 46%N) by lia. subst a.
    split; [reflexivity|]. repeat split; lia.
  - intros (stem & p & d & f' & -> & Hp & Hd & Hf).
    exists stem, [46%N; p; d; f']. split; [reflexivity|].
    destruct Hp as [-> | ->], Hd as [-> | ->], Hf as [-> | ->]; reflexivity.
Qed.

(** * Properties of [add_gui.py] *)

(** ** Rendering and OCR *)

(** X11. [render_pdf_page_as_image] returns an image exactly when the
    document opens, has a page at [page_index] and that page renders, and
    the image is the rendering of that page; on a document that opens with
    too few pages it raises [ValueError], and never [IndexError] from the
    indexing. *)
Theorem render_result (desk : Gui.Desk) (pdf_path : str) (page_index : nat)
    (zoom_x zoom_y : float) :
  (forall img,
      Gui.render_pdf_page_as_image desk pdf_path page_index zoom_x zoom_y
      = Ok img
      <-> exists doc page,
            Gui.fitz_open desk pdf_path = Ok doc
            /\ nth_error doc page_index = Some page
            /\ Gui.get_pixmap page zoom_x zoom_y = Ok img) /\
  (forall doc,
      Gui.fitz_open desk pdf_path = Ok doc ->
      (List.length doc <= page_index)%nat ->
      Gui.render_pdf_page_as_image desk pdf_path page_index zoom_x zoom_y
      = Raise ValueError) /\
  (forall e, Gui.fitz_open desk pdf_path = Raise e ->
             Gui.render_pdf_page_as_image desk pdf_path page_index zoom_x zoom_y
             = Raise e).
Proof.
  unfold Gui.render_pdf_page_as_image, getitem.
  split; [|split].
  - intros img. split.
    + destruct (Gui.fitz_open desk pdf_path) as [doc|e]; [|discriminate].
      cbn [bind].
      destruct (List.length doc <=? page_index)%nat; [discriminate|].
      destruct (nth_error doc page_index) as [page|] eqn:Hnth; [|discriminate].
      cbn [bind].
      destruct (Gui.get_pixmap page zoom_x zoom_y) as [pix|e] eqn:E;
        [|discriminate].
      cbn [bind]. intros H; injection H as <-. eauto.
    + intros (doc & page & -> & Hnth & Hpix). cbn [bind].
      assert (Hlt : (page_index < List.length doc)%nat)
        by (apply nth_error_Some; congruence).
      apply Nat.leb_gt in Hlt. rewrite Hlt, Hnth. cbn [bind].
      now rewrite Hpix.
  - intros doc -> Hle. cbn [bind]. apply Nat.leb_le in Hle. now rewrite Hle.
  - intros e ->. reflexivity.
Qed.

Lemma render_ext (d1 d2 : Gui.Desk) (pdf_path : str) (page_index : nat)
    (zoom_x zoom_y : float) :
  Gui.fitz_open d1 pdf_path = Gui.fitz_open d2 pdf_path ->
  Gui.render_pdf_page_as_image d1 pdf_path page_index zoom_x zoom_y
  = Gui.render_pdf_page_as_image d2 pdf_path page_index zoom_x zoom_y.
Proof. unfold Gui.render_pdf_page_as_image. now intros ->. Qed.

(** X12. The OCR engine is only given crops that lie inside the rendered
    page and are at least one pixel wide and high: the text read for a
    region is the same for two engines that agree on such crops.  A region
    that is such a crop already is cropped as it is. *)
Theorem ocr_reads_valid_crops (d1 d2 : Gui.Desk) (pdf_path : str)
    (region : Z * Z * Z * Z) (zoom_x zoom_y : float) :
  Gui.fitz_open d1 pdf_path = Gui.fitz_open d2 pdf_path ->
  (forall img box,
      Gui.valid_crop img box ->
      Gui.image_to_string d1 (Gui.crop img box)
      = Gui.image_to_string d2 (Gui.crop img box)) ->
  Gui.ocr_extract_text d1 pdf_path region zoom_x zoom_y
  = Gui.ocr_extract_text d2 pdf_path region zoom_x zoom_y
  /\ forall img,
       Gui.render_pdf_page_as_image d1 pdf_path 0 zoom_x zoom_y = Ok img ->
       Gui.valid_crop img region ->
       Gui.clamp_region img region = region.
Proof.
  intros Hopen Hocr. split.
  - unfold Gui.ocr_extract_text.
    rewrite (render_ext d1 d2 pdf_path 0 zoom_x zoom_y Hopen).
    destruct (Gui.render_pdf_page_as_image d2 pdf_path 0 zoom_x zoom_y)
      as [img|e]; [|reflexivity].
    cbn [bind]. destruct region as [[[l t] r] b]. unfold Gui.clamp_region.
    cbn zeta.
    destruct ((Z.max 0 (Z.min r (Gui.img_width img))
               - Z.max 0 (Z.min l (Gui.img_width img)) <? 1)%Z) eqn:Ew;
      [reflexivity|].
    destruct ((Z.max 0 (Z.min b (Gui.img_height img))
               - Z.max 0 (Z.min t (Gui.img_height img)) <? 1)%Z) eqn:Eh;
      [reflexivity|].
    cbn [orb]. rewrite Hocr; [reflexivity|].
    apply Z.ltb_ge in Ew, Eh. unfold Gui.valid_crop. lia.
  - intros img _ Hvalid. destruct region as [[[l t] r] b].
    unfold Gui.valid_crop in Hvalid. unfold Gui.clamp_region. cbn zeta.
    repeat f_equal; lia.
Qed.

(** Two engines that differ on crops without width only, on a region that
    reaches out of the page on three sides. *)
Lemma ocr_reads_valid_crops_witness :
  let other :=
    Gui.mkDesk (fun p => str_eqb p (lit "in")) (fun _ => Ok [])
      (fun a b => a ++ lit "/" ++ b) Gui.sample_open
      (fun img => if (Gui.img_width img <? 1)%Z then Ok (lit "none")
                  else Gui.sample_ocr img) in
  Gui.ocr_extract_text (Gui.sample_desk []) (lit "in/a.pdf")
    (-20, 100, 900, 700)%Z 2 2
  = Gui.ocr_extract_text other (lit "in/a.pdf") (-20, 100, 900, 700)%Z 2 2.
Proof.
  intros other.
  apply (ocr_reads_valid_crops (Gui.sample_desk []) other (lit "in/a.pdf")
           (-20, 100, 900, 700)%Z 2 2 eq_refl).
  intros img [[[l t] r] b] Hvalid. cbn in *.
  destruct (r - l <? 1)%Z eqn:E; [|reflexivity].
  apply Z.ltb_lt in E. lia.
Defined.

(** X13. A region without width or height, or lying outside the rendered
    page, reads as the empty string without any OCR, provided the page
    renders; when it does not, the exception of the rendering comes out
    whatever the region. *)
Theorem ocr_of_empty_region (desk : Gui.Desk) (pdf_path : str)
    (x_left y_top x_right y_bottom : Z) (zoom_x zoom_y : float) :
  (forall img,
      Gui.render_pdf_page_as_image desk pdf_path 0 zoom_x zoom_y = Ok img ->
      (x_right <= x_left \/ y_bottom <= y_top
       \/ Gui.img_width img <= x_left \/ x_right <= 0
       \/ Gui.img_height img <= y_top \/ y_bottom <= 0)%Z ->
      Gui.ocr_extract_text desk pdf_path (x_left, y_top, x_right, y_bottom)
        zoom_x zoom_y = Ok []) /\
  (forall e,
      Gui.render_pdf_page_as_image desk pdf_path 0 zoom_x zoom_y = Raise e ->
      Gui.ocr_extract_text desk pdf_path (x_left, y_top, x_right, y_bottom)
        zoom_x zoom_y = Raise e).
Proof.
  unfold Gui.ocr_extract_text. split.
  - intros img -> H. cbn [bind]. unfold Gui.clamp_region. cbn zeta.
    replace ((Z.max 0 (Z.min x_right (Gui.img_width img))
              - Z.max 0 (Z.min x_left (Gui.img_width img)) <? 1)%Z
             || (Z.max 0 (Z.min y_bottom (Gui.img_height img))
                 - Z.max 0 (Z.min y_top (Gui.img_height img)) <? 1)%Z)
      with true; [reflexivity|].
    symmetry. apply orb_true_iff. rewrite !Z.ltb_lt. lia.
  - intros e ->. reflexivity.
Qed.

(** A click without a drag at (40, 30), and a file that does not open. *)
Lemma ocr_of_empty_region_witness :
  Gui.ocr_extract_text (Gui.sample_desk []) (lit "in/a.pdf")
    (40, 30, 40, 30)%Z 2 2 = Ok []
  /\ Gui.ocr_extract_text (Gui.sample_desk []) (lit "in/gone.pdf")
       (40, 30, 400, 300)%Z 2 2 = Raise (FitzError 1).
Proof.
  split.
  - apply (proj1 (ocr_of_empty_region (Gui.sample_desk []) (lit "in/a.pdf")
                    40 30 40 30 2 2)
             (Gui.mkImage 800 600 (Gui.Rendered 1)) eq_refl).
    lia.
  - apply (proj2 (ocr_of_empty_region (Gui.sample_desk []) (lit "in/gone.pdf")
                    40 30 400 300 2 2)).
    reflexivity.
Defined.

(** ** Selecting the region with the mouse *)

Lemma mainloop_app (img : Gui.Image) (events later : list Gui.Event) :
  Gui.mainloop img (events ++ later)
  = fold_left Gui.handle later (Gui.mainloop img events).
Proof. unfold Gui.mainloop. apply fold_left_app. Qed.

Lemma drags_keep_start (drags : list Gui.Event) :
  forallb Gui.is_motion drags = true ->
  forall s,
    Gui.start_x (fold_left Gui.handle drags s) = Gui.start_x s
    /\ Gui.start_y (fold_left Gui.handle drags s) = Gui.start_y s
    /\ Gui.selected_area (fold_left Gui.handle drags s) = Gui.selected_area s.
Proof.
  induction drags as [|ev drags IH]; intros Hdrags s; [auto|].
  cbn [forallb] in Hdrags. apply andb_prop in Hdrags as [Hev Hdrags].
  destruct ev as [x y|x y|x y]; try discriminate Hev.
  cbn [fold_left Gui.handle].
  destruct (IH Hdrags (Gui.on_mouse_drag s x y)) as (-> & -> & ->).
  unfold Gui.on_mouse_drag. cbn zeta.
  destruct (Gui.create _ _). auto.
Qed.

Lemma selected_after_release (img : Gui.Image) (before drags : list Gui.Event)
    (a b c d : Z) :
  forallb Gui.is_motion drags = true ->
  Gui.selected_area
    (Gui.mainloop img
       (before ++ Gui.ButtonPress a b :: drags ++ [Gui.ButtonRelease c d]))
  = (Z.min a c, Z.min b d, Z.max a c, Z.max b d).
Proof.
  intros Hdrags.
  rewrite mainloop_app. cbn [fold_left Gui.handle].
  rewrite fold_left_app. cbn [fold_left Gui.handle].
  unfold Gui.on_mouse_release. cbn zeta. cbn [Gui.selected_area].
  destruct (drags_keep_start drags Hdrags
              (Gui.on_mouse_press (Gui.mainloop img before) a b))
    as (-> & -> & _).
  unfold Gui.on_mouse_press.
  destruct (Gui.rect_id (Gui.mainloop img before)); reflexivity.
Qed.

(** X14. Whatever the mouse does, the area selected has its left edge not
    right of its right edge and its top not below its bottom.  After a
    press at (a, b), a drag and a release at (c, d) it is the box spanned
    by the two points, in whichever direction the drag went. *)
Theorem selection_is_a_box (img : Gui.Image) :
  (forall events,
      let '(x_left, y_top, x_right, y_bottom) :=
        Gui.selected_area (Gui.mainloop img events) in
      (x_left <= x_right /\ y_top <= y_bottom)%Z) /\
  (forall before drags a b c d,
      forallb Gui.is_motion drags = true ->
      Gui.selected_area
        (Gui.mainloop img
           (before ++ Gui.ButtonPress a b :: drags ++ [Gui.ButtonRelease c d]))
      = (Z.min a c, Z.min b d, Z.max a c, Z.max b d)).
Proof.
  split.
  - intros events. induction events as [|ev events IH] using rev_ind.
    + cbn. lia.
    + rewrite mainloop_app. cbn [fold_left Gui.handle].
      destruct ev as [x y|x y|x y]; cbn [Gui.handle].
      * unfold Gui.on_mouse_press.
        destruct (Gui.rect_id (Gui.mainloop img events)); exact IH.
      * unfold Gui.on_mouse_drag. cbn zeta. destruct (Gui.create _ _).
        exact IH.
      * unfold Gui.on_mouse_release. cbn zeta. cbn [Gui.selected_area]. lia.
  - intros before drags a b c d Hdrags. now apply selected_after_release.
Qed.

(** The sample drag, up and to the left, after an earlier selection. *)
Lemma selection_is_a_box_witness :
  Gui.selected_area
    (Gui.mainloop (Gui.mkImage 800 600 (Gui.Rendered 1))
       ([Gui.ButtonPress 5 5; Gui.ButtonRelease 9 9] ++ Gui.sample_drag))
  = (100, 50, 300, 200)%Z.
Proof.
  exact (proj2 (selection_is_a_box (Gui.mkImage 800 600 (Gui.Rendered 1)))
           [Gui.ButtonPress 5 5; Gui.ButtonRelease 9 9]
           [Gui.Motion 250 150; Gui.Motion 100 50] 300 200 100 50 eq_refl)%Z.
Defined.

Lemma delete_drawn (img : Gui.Image) (id next : N) (item : Gui.Item) :
  (1 < id)%N ->
  Gui.delete (Gui.mkCanvas [(1%N, Gui.ImageItem img); (id, item)] next) id
  = Gui.mkCanvas [(1%N, Gui.ImageItem img)] next.
Proof.
  intros Hid. unfold Gui.delete. cbn [Gui.items Gui.next_id List.filter fst].
  rewrite N.eqb_refl. replace (1 =? id)%N with false; [reflexivity|].
  symmetry. apply N.eqb_neq. lia.
Qed.

Lemma handle_tidy (img : Gui.Image) (s : Gui.Selection) (ev : Gui.Event) :
  Gui.tidy img s -> Gui.tidy img (Gui.handle s ev).
Proof.
  destruct s as [[its next] rid sx sy area]. unfold Gui.tidy.
  cbn [Gui.canvas Gui.rect_id Gui.start_x Gui.start_y Gui.items Gui.next_id].
  intros [Hnext Hitems].
  destruct ev as [x y|x y|x y]; cbn [Gui.handle].
  - unfold Gui.on_mouse_press. cbn [Gui.rect_id Gui.canvas Gui.selected_area].
    destruct rid as [id|].
    + destruct Hitems as (Hid & x' & y' & ->).
      rewrite delete_drawn by lia. cbn. auto.
    + cbn. auto.
  - unfold Gui.on_mouse_drag.
    cbn [Gui.rect_id Gui.canvas Gui.selected_area Gui.start_x Gui.start_y].
    destruct rid as [id|].
    + destruct Hitems as (Hid & x' & y' & ->).
      rewrite delete_drawn by lia. cbn.
      split; [lia|]. split; [lia|]. eauto.
    + subst its. cbn. split; [lia|]. split; [lia|]. eauto.
  - unfold Gui.on_mouse_release. cbn. auto.
Qed.

(** X15. The canvas never shows more than one selection rectangle: after
    any sequence of presses, drags and releases it holds the page and, when
    a rectangle is drawn, that one rectangle only, from the point of the
    last press. *)
Theorem one_rectangle_on_canvas (img : Gui.Image) (events : list Gui.Event) :
  let s := Gui.mainloop img events in
  exists drawn,
    Gui.items (Gui.canvas s) = (1%N, Gui.ImageItem img) :: drawn
    /\ match Gui.rect_id s with
       | None => drawn = []
       | Some id =>
           exists x y,
             drawn = [(id, Gui.RectangleItem (Gui.start_x s) (Gui.start_y s)
                             x y)]
       end.
Proof.
  cbn zeta.
  assert (Htidy : Gui.tidy img (Gui.mainloop img events)).
  { induction events as [|ev events IH] using rev_ind.
    - split; reflexivity.
    - rewrite mainloop_app. cbn [fold_left]. now apply handle_tidy. }
  destruct Htidy as [_ H].
  destruct (Gui.rect_id (Gui.mainloop img events)) as [id|].
  - destruct H as (_ & x & y & ->). eauto.
  - rewrite H. eauto.
Qed.

(** ** [list.sort] on the names *)

Lemma str_leb_total (a b : str) :
  AddGui.str_leb a b = false -> AddGui.str_leb b a = true.
Proof.
  revert b. induction a as [|x a IH]; intros [|y b]; cbn; try congruence.
  destruct (N.ltb_spec x y), (N.ltb_spec y x), (N.eqb_spec x y),
    (N.eqb_spec y x); cbn; try congruence; try lia.
  apply IH.
Qed.

Lemma str_leb_trans (a b c : str) :
  AddGui.str_leb a b = true -> AddGui.str_leb b c = true ->
  AddGui.str_leb a c = true.
Proof.
  revert b c. induction a as [|x a IH]; intros [|y b] [|z c]; cbn;
    try congruence.
  destruct (N.ltb_spec x y), (N.ltb_spec y z), (N.ltb_spec x z),
    (N.eqb_spec x y), (N.eqb_spec y z), (N.eqb_spec x z); cbn;
    try congruence; try lia.
  apply IH.
Qed.

Lemma insert_perm (s : str) (l : list str) :
  Permutation (AddGui.insert s l) (s :: l).
Proof.
  induction l as [|t l IH]; cbn [AddGui.insert]; [reflexivity|].
  destruct (AddGui.str_leb s t); [reflexivity|].
  eapply perm_trans; [apply perm_skip, IH|apply perm_swap].
Qed.

Lemma sort_perm (l : list str) : Permutation (AddGui.sort l) l.
Proof.
  induction l as [|s l IH]; [reflexivity|].
  change (AddGui.sort (s :: l)) with (AddGui.insert s (AddGui.sort l)).
  eapply perm_trans; [apply insert_perm|]. now apply perm_skip.
Qed.

Lemma insert_sorted (s : str) (l : list str) :
  Sorted Gui.str_le l -> Sorted Gui.str_le (AddGui.insert s l).
Proof.
  induction 1 as [|t l Hsorted IH Hhd]; cbn.
  - repeat constructor.
  - destruct (AddGui.str_leb s t) eqn:E.
    + constructor; [now constructor|]. now constructor.
    + constructor; [exact IH|].
      apply str_leb_total in E.
      destruct l as [|u l]; cbn.
      * now constructor.
      * destruct (AddGui.str_leb s u); constructor; [exact E|].
        now inversion Hhd.
Qed.

Lemma sort_sorted (l : list str) : StronglySorted Gui.str_le (AddGui.sort l).
Proof.
  apply Sorted_StronglySorted.
  - intros a b c. apply str_leb_trans.
  - induction l as [|s l IH]; [constructor|].
    change (AddGui.sort (s :: l)) with (AddGui.insert s (AddGui.sort l)).
    now apply insert_sorted.
Qed.

(** ** The OCR batch *)

Lemma ocr_all_eq (desk : Gui.Desk) (folder_path : str)
    (area : Z * Z * Z * Z) (zoom_x zoom_y : float) (pdf_files : list str) :
  forall results,
    fst (Gui.ocr_all desk folder_path area zoom_x zoom_y pdf_files results)
    = results
      ++ List.map (fun pdf_name =>
                     (pdf_name,
                      Gui.recorded_text desk folder_path area zoom_x zoom_y
                        pdf_name)) pdf_files.
Proof.
  induction pdf_files as [|pdf_name rest IH]; intros results.
  - cbn. now rewrite app_nil_r.
  - cbn [Gui.ocr_all List.map]. unfold Gui.recorded_text at 1.
    destruct (Gui.ocr_extract_text desk
                (Gui.path_join desk folder_path pdf_name) area zoom_x zoom_y)
      as [text|e].
    all: match goal with
         | |- context [Gui.ocr_all ?d ?f ?a ?zx ?zy ?files ?acc] =>
             specialize (IH acc);
             destruct (Gui.ocr_all d f a zx zy files acc)
         end.
    all: cbn [fst] in *; subst; now rewrite <- app_assoc.
Qed.

Lemma area_eqb_eq (a b : Z * Z * Z * Z) : Gui.area_eqb a b = true <-> a = b.
Proof.
  destruct a as [[[a0 a1] a2] a3], b as [[[b0 b1] b2] b3].
  unfold Gui.area_eqb. rewrite !andb_true_iff, !Z.eqb_eq. split.
  - intros [[[-> ->] ->] ->]. reflexivity.
  - intros H; injection H as -> -> -> ->. auto.
Qed.

(** The run once a region is selected: one record for each file. *)
Lemma process_selected (desk : Gui.Desk) (typed : str)
    (events : list Gui.Event) (names : list str) (first_name : str)
    (area : Z * Z * Z * Z) (dims : Z * Z) :
  Gui.isdir desk (strip typed) = true ->
  Gui.listdir desk (strip typed) = Ok names ->
  hd_error (AddGui.pdf_files names) = Some first_name ->
  Gui.select_table_region desk
    (Gui.path_join desk (strip typed) first_name) 2 2 events
  = Ok (area, dims) ->
  area <> (0, 0, 0, 0)%Z ->
  snd (Gui.process_pdfs_in_folder desk typed events)
  = Ok (Some
          (Gui.path_join desk (strip typed) (lit "extracted_data.xlsx"),
           mkDataFrame [lit "FileName"; lit "ExtractedText"]
             (List.map
                (fun pdf_name =>
                   [pdf_name;
                    Gui.recorded_text desk (strip typed) area 2 2 pdf_name])
                (AddGui.pdf_files names)))).
Proof.
  intros Hdir Hlist Hfirst Hselect Harea.
  unfold Gui.process_pdfs_in_folder. cbn zeta.
  rewrite Hdir, Hlist. cbn [negb].
  unfold AddGui.pdf_files in *.
  destruct (List.filter is_pdf names) as [|f files] eqn:Efiles;
    [discriminate Hfirst|].
  cbn [truthy negb].
  destruct (AddGui.sort (f :: files)) as [|s sorted] eqn:Esort;
    [discriminate Hfirst|].
  injection Hfirst as ->. cbn [first].
  rewrite Hselect. destruct dims as [img_w img_h].
  destruct (Gui.area_eqb area (0, 0, 0, 0)%Z) eqn:Ezero.
  { apply area_eqb_eq in Ezero. contradiction. }
  pose proof (ocr_all_eq desk (strip typed) area 2 2 (first_name :: sorted) [])
    as Hall.
  destruct (Gui.ocr_all desk (strip typed) area 2 2 (first_name :: sorted) [])
    as [results printed].
  cbn [fst snd app] in *. subst results.
  unfold Gui.frame_of_records. cbn [List.map truthy].
  do 3 f_equal. f_equal. now rewrite map_map.
Qed.

(** X16. Once a region is selected, the Excel file has exactly one record
    for each selected file, in the sorted order of the names, whatever
    happens to the files: the text of a file whose rendering or OCR raises
    is recorded as the empty string and the loop goes on. *)
Theorem one_record_per_file (desk : Gui.Desk) (typed : str)
    (events : list Gui.Event) (names : list str) (first_name : str)
    (area : Z * Z * Z * Z) (dims : Z * Z) :
  let folder_path := strip typed in
  let pdf_files := AddGui.pdf_files names in
  Gui.isdir desk folder_path = true ->
  Gui.listdir desk folder_path = Ok names ->
  hd_error pdf_files = Some first_name ->
  Gui.select_table_region desk
    (Gui.path_join desk folder_path first_name) 2 2 events
  = Ok (area, dims) ->
  area <> (0, 0, 0, 0)%Z ->
  StronglySorted Gui.str_le pdf_files
  /\ Permutation pdf_files (List.filter is_pdf names)
  /\ snd (Gui.process_pdfs_in_folder desk typed events)
     = Ok (Some
             (Gui.path_join desk folder_path (lit "extracted_data.xlsx"),
              mkDataFrame [lit "FileName"; lit "ExtractedText"]
                (List.map
                   (fun pdf_name =>
                      [pdf_name;
                       match Gui.ocr_extract_text desk
                               (Gui.path_join desk folder_path pdf_name)
                               area 2 2 with
                       | Ok text => text
                       | Raise _ => []
                       end])
                   pdf_files))).
Proof.
  intros folder_path pdf_files Hdir Hlist Hfirst Hselect Harea.
  split; [apply sort_sorted|]. split; [apply sort_perm|].
  exact (process_selected desk typed events names first_name area dims
           Hdir Hlist Hfirst Hselect Harea).
Qed.

(** Three files of which one does not open, after the sample drag. *)
Lemma one_record_per_file_witness :
  snd (Gui.process_pdfs_in_folder
         (Gui.sample_desk [lit "gone.pdf"; lit "b.PDF"; lit "x.txt"; lit "a.pdf"])
         (lit "in ") Gui.sample_drag)
  = Ok (Some (lit "in/extracted_data.xlsx",
              mkDataFrame [lit "FileName"; lit "ExtractedText"]
                [[lit "a.pdf"; lit "TEXT"]; [lit "b.PDF"; lit "TEXT"];
                 [lit "gone.pdf"; []]])).
Proof.
  destruct (one_record_per_file
              (Gui.sample_desk
                 [lit "gone.pdf"; lit "b.PDF"; lit "x.txt"; lit "a.pdf"])
              (lit "in ") Gui.sample_drag
              [lit "gone.pdf"; lit "b.PDF"; lit "x.txt"; lit "a.pdf"]
              (lit "a.pdf") (100, 50, 300, 200)%Z (800, 600)%Z
              eq_refl eq_refl eq_refl eq_refl ltac:(discriminate))
    as (_ & _ & Hrun).
  rewrite Hrun. vm_compute. reflexivity.
Defined.

(** X17. The rendering of the first file, in sorted order, is not
    guarded: when that file does not open, has no page or does not render,
    the run ends with that exception after the prompt to select a region,
    before any file is read and without writing anything. *)
Theorem first_file_must_render (desk : Gui.Desk) (typed : str)
    (events : list Gui.Event) (names : list str) (first_name : str) (e : Exn) :
  let folder_path := strip typed in
  let first_pdf := Gui.path_join desk folder_path first_name in
  Gui.isdir desk folder_path = true ->
  Gui.listdir desk folder_path = Ok names ->
  hd_error (AddGui.pdf_files names) = Some first_name ->
  Gui.render_pdf_page_as_image desk first_pdf 0 2 2 = Raise e ->
  Gui.process_pdfs_in_folder desk typed events
  = ([Gui.SelectRegionOn first_pdf], Raise e).
Proof.
  intros folder_path first_pdf Hdir Hlist Hfirst Hrender.
  subst folder_path first_pdf.
  unfold Gui.process_pdfs_in_folder. cbn zeta.
  rewrite Hdir, Hlist. cbn [negb].
  unfold AddGui.pdf_files in *.
  destruct (List.filter is_pdf names) as [|f files]; [discriminate Hfirst|].
  cbn [truthy negb].
  destruct (AddGui.sort (f :: files)) as [|s sorted]; [discriminate Hfirst|].
  injection Hfirst as ->. cbn [first].
  unfold Gui.select_table_region. rewrite Hrender. reflexivity.
Qed.

(** The first name in sorted order is a document without pages. *)
Lemma first_file_must_render_witness :
  Gui.process_pdfs_in_folder
    (Gui.sample_desk [lit "b.PDF"; lit "a.pdf"; lit "0.pdf"]) (lit "in")
    Gui.sample_drag
  = ([Gui.SelectRegionOn (lit "in/0.pdf")], Raise ValueError).
Proof.
  apply (first_file_must_render
           (Gui.sample_desk [lit "b.PDF"; lit "a.pdf"; lit "0.pdf"]) (lit "in")
           Gui.sample_drag [lit "b.PDF"; lit "a.pdf"; lit "0.pdf"]
           (lit "0.pdf") ValueError); reflexivity.
Defined.

(** ** Selections that read nothing *)

Lemma no_release_keeps_area (events : list Gui.Event) :
  forallb (fun ev => negb (Gui.is_release ev)) events = true ->
  forall s,
    Gui.selected_area (fold_left Gui.handle events s) = Gui.selected_area s.
Proof.
  induction events as [|ev events IH]; intros Hev s; [reflexivity|].
  cbn [forallb] in Hev. apply andb_prop in Hev as [Hhead Hrest].
  cbn [fold_left]. rewrite (IH Hrest).
  destruct ev as [x y|x y|x y]; cbn [Gui.handle].
  - unfold Gui.on_mouse_press. now destruct (Gui.rect_id s).
  - unfold Gui.on_mouse_drag. cbn zeta. now destruct (Gui.create _ _).
  - discriminate Hhead.
Qed.

Lemma recorded_text_without_width (desk : Gui.Desk) (folder_path : str)
    (x_left y_top x_right y_bottom : Z) (zoom_x zoom_y : float)
    (pdf_name : str) :
  (x_right <= x_left)%Z ->
  Gui.recorded_text desk folder_path (x_left, y_top, x_right, y_bottom)
    zoom_x zoom_y pdf_name = [].
Proof.
  intros Hwidth. unfold Gui.recorded_text, Gui.ocr_extract_text.
  destruct (Gui.render_pdf_page_as_image desk
              (Gui.path_join desk folder_path pdf_name) 0 zoom_x zoom_y)
    as [img|e]; [|reflexivity].
  cbn [bind]. unfold Gui.clamp_region. cbn zeta.
  replace (Z.max 0 (Z.min x_right (Gui.img_width img))
           - Z.max 0 (Z.min x_left (Gui.img_width img)) <? 1)%Z with true;
    [reflexivity|].
  symmetry. apply Z.ltb_lt. lia.
Qed.

(** X18. The test against [0, 0, 0, 0] does not catch every selection
    without area.  A click without a drag anywhere but at the origin
    selects the point clicked, the run goes through every file, and the
    Excel file records the empty string for each of them.  When no button
    release arrives before the window is closed, whatever was dragged, the
    area is still [0, 0, 0, 0] and nothing is written. *)
Theorem selection_without_area (desk : Gui.Desk) (typed : str)
    (names : list str) (first_name : str) (img : Gui.Image) :
  let folder_path := strip typed in
  let first_pdf := Gui.path_join desk folder_path first_name in
  Gui.isdir desk folder_path = true ->
  Gui.listdir desk folder_path = Ok names ->
  hd_error (AddGui.pdf_files names) = Some first_name ->
  Gui.render_pdf_page_as_image desk first_pdf 0 2 2 = Ok img ->
  (forall before a b,
      (a <> 0 \/ b <> 0)%Z ->
      snd (Gui.process_pdfs_in_folder desk typed
             (before ++ [Gui.ButtonPress a b; Gui.ButtonRelease a b]))
      = Ok (Some
              (Gui.path_join desk folder_path (lit "extracted_data.xlsx"),
               mkDataFrame [lit "FileName"; lit "ExtractedText"]
                 (List.map (fun pdf_name => [pdf_name; []])
                           (AddGui.pdf_files names))))) /\
  (forall events,
      forallb (fun ev => negb (Gui.is_release ev)) events = true ->
      Gui.process_pdfs_in_folder desk typed events
      = ([Gui.SelectRegionOn first_pdf; Gui.NoRegionSelected], Ok None)).
Proof.
  intros folder_path first_pdf Hdir Hlist Hfirst Hrender.
  subst folder_path first_pdf. split.
  - intros before a b Hpoint.
    assert (Hselect :
      Gui.select_table_region desk
        (Gui.path_join desk (strip typed) first_name) 2 2
        (before ++ [Gui.ButtonPress a b; Gui.ButtonRelease a b])
      = Ok ((a, b, a, b), (Gui.img_width img, Gui.img_height img))).
    { unfold Gui.select_table_region. rewrite Hrender. cbn [bind].
      pose proof (selected_after_release img before [] a b a b eq_refl)
        as Hsel.
      cbn [app] in Hsel. rewrite Hsel.
      now rewrite !Z.min_id, !Z.max_id. }
    rewrite (process_selected desk typed _ names first_name _ _
               Hdir Hlist Hfirst Hselect).
    + do 3 f_equal. f_equal. apply map_ext. intros pdf_name.
      rewrite recorded_text_without_width by lia. reflexivity.
    + intros H; injection H as -> ->. lia.
  - intros events Hevents.
    unfold Gui.process_pdfs_in_folder. cbn zeta.
    rewrite Hdir, Hlist. cbn [negb].
    unfold AddGui.pdf_files in *.
    destruct (List.filter is_pdf names) as [|f files]; [discriminate Hfirst|].
    cbn [truthy negb].
    destruct (AddGui.sort (f :: files)) as [|s sorted]; [discriminate Hfirst|].
    injection Hfirst as ->. cbn [first].
    unfold Gui.select_table_region. rewrite Hrender. cbn [bind].
    unfold Gui.mainloop. rewrite (no_release_keeps_area events Hevents).
    reflexivity.
Qed.

(** A click at (40, 30) on the first page of the sample; a press and a
    drag that the window closes on. *)
Lemma selection_without_area_witness :
  snd (Gui.process_pdfs_in_folder
         (Gui.sample_desk [lit "b.PDF"; lit "a.pdf"]) (lit "in")
         [Gui.ButtonPress 40 30; Gui.ButtonRelease 40 30])
  = Ok (Some (lit "in/extracted_data.xlsx",
              mkDataFrame [lit "FileName"; lit "ExtractedText"]
                [[lit "a.pdf"; []]; [lit "b.PDF"; []]]))
  /\ Gui.process_pdfs_in_folder
       (Gui.sample_desk [lit "b.PDF"; lit "a.pdf"]) (lit "in")
       [Gui.ButtonPress 40 30; Gui.Motion 400 300]
     = ([Gui.SelectRegionOn (lit "in/a.pdf"); Gui.NoRegionSelected], Ok None).
Proof.
  destruct (selection_without_area
              (Gui.sample_desk [lit "b.PDF"; lit "a.pdf"]) (lit "in")
              [lit "b.PDF"; lit "a.pdf"] (lit "a.pdf")
              (Gui.mkImage 800 600 (Gui.Rendered 1))
              eq_refl eq_refl eq_refl eq_refl) as [Hclick Hopen].
  split.
  - exact (Hclick [] 40 30 ltac:(lia))%Z.
  - exact (Hopen [Gui.ButtonPress 40 30; Gui.Motion 400 300] eq_refl).
Defined.

(** X19. Every text recorded in the Excel file is without whitespace at
    either end: the text of the OCR is stripped, and a file that fails is
    recorded with the empty string. *)
Theorem recorded_texts_are_stripped (desk : Gui.Desk) (folder_path : str)
    (area : Z * Z * Z * Z) (zoom_x zoom_y : float) (pdf_files : list str)
    (results : list (str * str)) :
  Forall (fun record => strip (snd record) = snd record) results ->
  Forall (fun record => strip (snd record) = snd record)
         (fst (Gui.ocr_all desk folder_path area zoom_x zoom_y pdf_files
                 results)).
Proof.
  intros Hresults. rewrite ocr_all_eq. apply Forall_app. split; [exact Hresults|].
  apply Forall_forall. intros record Hin.
  apply in_map_iff in Hin as (pdf_name & <- & _). cbn [snd].
  unfold Gui.recorded_text, Gui.ocr_extract_text.
  destruct (Gui.render_pdf_page_as_image desk
              (Gui.path_join desk folder_path pdf_name) 0 zoom_x zoom_y)
    as [img|e]; [|reflexivity].
  cbn [bind]. destruct (Gui.clamp_region img area) as [[[l t] r] b].
  destruct ((r - l <? 1)%Z || (b - t <? 1)%Z); [reflexivity|].
  destruct (Gui.image_to_string desk (Gui.crop img (l, t, r, b))) as [text|e];
    [|reflexivity].
  cbn [bind]. apply strip_strip.
Qed.

Lemma recorded_texts_are_stripped_witness :
  Forall (fun record => strip (snd record) = snd record)
         (fst (Gui.ocr_all (Gui.sample_desk []) (lit "in")
                 (100, 50, 300, 200)%Z 2 2 [lit "a.pdf"; lit "gone.pdf"] [])).
Proof.
  apply (recorded_texts_are_stripped (Gui.sample_desk []) (lit "in")
           (100, 50, 300, 200)%Z 2 2 [lit "a.pdf"; lit "gone.pdf"] []).
  constructor.
Defined.

(** * The order of processing in [main.py] *)

(** X20. With the folder found and listed, the files processed are the
    names of the listing that end in ".pdf", each once, in the order in
    which [os.listdir] gives them: the progress lines printed name exactly
    these paths in that order. *)
Theorem processed_in_listing_order (w : World) (typed : str)
    (names : list str) (csv : option (str * DataFrame)) (printed : list Msg) :
  path_exists w (strip typed) = true ->
  listdir w (strip typed) = Ok names ->
  process_pdfs_in_folder w typed = Ok (csv, printed) ->
  List.filter (fun m => match m with Processing _ => true | _ => false end)
    printed
  = List.map (fun pdf_file => Processing (path_join w (strip typed) pdf_file))
      (List.filter is_pdf names).
Proof.
  intros Hexists Hlist Hrun.
  rewrite process_pdfs_in_folder_eq in Hrun. cbn zeta in Hrun.
  rewrite Hexists, Hlist in Hrun. cbn [negb] in Hrun.
  pose proof (processing_order w (strip typed) (List.filter is_pdf names))
    as Horder.
  destruct (List.filter is_pdf names) as [|f files].
  - injection Hrun as _ <-. reflexivity.
  - assert (Hlast : forall m,
      match m with Processing _ => true | _ => false end = false ->
      List.filter (fun m => match m with Processing _ => true | _ => false end)
        (transcript w (strip typed) (f :: files) ++ [m])
      = List.map
          (fun pdf_file => Processing (path_join w (strip typed) pdf_file))
          (f :: files)).
    { intros m Hm. rewrite filter_app, Horder. cbn [List.filter].
      rewrite Hm. apply app_nil_r. }
    destruct (successes w (strip typed) (f :: files));
      injection Hrun as _ <-; apply Hlast; reflexivity.
Qed.

Lemma processed_in_listing_order_witness :
  List.filter (fun m => match m with Processing _ => true | _ => false end)
    [Processing (lit "in/both.pdf");
     Processing (lit "in/gone.pdf"); PdfProcessingError (FitzError 1);
     Processing (lit "in/fallback.PDF");
     Processing (lit "in/short.pdf"); TableShapeMismatch (lit "in/short.pdf");
     CsvSaved (lit "in/extracted_data.csv")]
  = List.map (fun pdf_file => Processing (lit "in" ++ lit "/" ++ pdf_file))
      (List.filter is_pdf Samples.names_mixed).
Proof.
  exact (processed_in_listing_order (Samples.world Samples.names_mixed)
           (lit "in") Samples.names_mixed _ _ eq_refl eq_refl
           ltac:(vm_compute; reflexivity)).
Defined.

(** * Further samples *)

Lemma empty_table_exit_is_dead_witness :
  TableShapeMismatch (lit "in/short.pdf") <> TableEmpty (lit "in/short.pdf").
Proof.
  apply (empty_table_exit_is_dead Samples.open_sample (lit "in/short.pdf")).
  vm_compute. now left.
Defined.


Lemma selected_by_extension_witness :
  is_pdf (lit "Drawing-01.PdF") = true /\ is_pdf (lit ".pdf") = true.
Proof.
  split.
  - apply (selected_by_extension (lit "Drawing-01.PdF")).
    exists (lit "Drawing-01"), 80%N, 100%N, 70%N. repeat split; auto.
  - apply (selected_by_extension (lit ".pdf")).
    exists [], 112%N, 100%N, 102%N. repeat split; auto.
Defined.

Lemma render_result_witness :
  Gui.render_pdf_page_as_image (Gui.sample_desk []) (lit "in/empty.pdf") 0 2 2
  = Raise ValueError
  /\ Gui.render_pdf_page_as_image (Gui.sample_desk []) (lit "in/a.pdf") 0 2 2
     = Ok (Gui.mkImage 800 600 (Gui.Rendered 1)).
Proof.
  split.
  - apply (proj1 (proj2 (render_result (Gui.sample_desk [])
                           (lit "in/empty.pdf") 0 2 2)) [] eq_refl).
    cbn. lia.
  - apply (proj1 (render_result (Gui.sample_desk []) (lit "in/a.pdf") 0 2 2)).
    exists [Gui.sample_page 1], (Gui.sample_page 1). repeat split.
Defined.
